(** * media-stream-download.js: a model of the recording worker and the
      orchestrator, and the properties of the specification checked on it.

    The script is event driven: every handler runs to completion on one
    thread.  A handler is modelled as a computation in a state-and-exception
    monad over the worker object ([this]) and the part of the page that the
    script touches (console, constructed recorders, blob URLs, downloads).
    The browser is the environment: it delivers the video and recorder events
    and changes the video element between two handlers. *)

From Stdlib Require Import ZArith QArith.
From Stdlib.Strings Require Import Byte.
From stdpp Require Import base list strings.

Local Open Scope string_scope.
Local Open Scope list_scope.
Local Open Scope Z_scope.

(** ** Browser objects *)

(** [HTMLVideoElement]: the attributes read by the script; [capturable] tells
    whether [captureStream()] returns a stream or throws. *)
Record HTMLVideoElement := mkVideo {
  currentTime : Q;
  paused : bool;
  ended : bool;
  readyState : Z;
  capturable : bool
}.

(** [q > 0] on a time in seconds. *)
Definition Qpositive (q : Q) : bool := 0 <? Qnum q.

(** The getter installed on [HTMLVideoElement.prototype]:
    [!!(this.currentTime > 0 && !this.paused && !this.ended && this.readyState > 2)]. *)
Definition playing (v : HTMLVideoElement) : bool :=
  Qpositive (currentTime v) && negb (paused v) && negb (ended v) && (2 <? readyState v).

Record Blob := mkBlob {
  blob_bytes : list byte;
  blob_type : string
}.

Definition size (b : Blob) : Z := Z.of_nat (length (blob_bytes b)).

(** [new Blob(parts, {type})]: the bytes of the parts, in order. *)
Definition new_Blob (parts : list Blob) (type : string) : Blob :=
  mkBlob (concat (map blob_bytes parts)) type.

Record MediaStream := mkStream { stream_fps : Z }.

Record Options := mkOptions { opt_mimeType : string }.

Module RecordingState.
Inductive t := inactive | recording | paused.

Definition eqb (x y : t) : bool :=
  match x, y with
  | inactive, inactive | recording, recording | paused, paused => true
  | _, _ => false
  end.
End RecordingState.

(** A [MediaRecorder] object; [rec_id] is its position among the recorders
    constructed on the page, which gives the object its identity. *)
Record MediaRecorder := mkRecorder {
  rec_id : nat;
  state : RecordingState.t;
  rec_stream : MediaStream;
  rec_options : Options
}.

Definition with_state (s : RecordingState.t) (mr : MediaRecorder) : MediaRecorder :=
  mkRecorder (rec_id mr) s (rec_stream mr) (rec_options mr).

(** The anchor element used to trigger the download. *)
Record Anchor := mkAnchor {
  style : string;
  href : option nat;
  download : string;
  parentNode : bool
}.

(** [document.createElement("a")]: no style, no target, not in the page. *)
Definition createElement_a : Anchor := mkAnchor EmptyString None EmptyString false.

Inductive Exn := NotSupportedError | InvalidStateError | TypeError.

Inductive Completion (A : Type) :=
| Normal (a : A)
| Throw (e : Exn).
Arguments Normal {A} a.
Arguments Throw {A} e.

(** ** Logger *)

Module Logger.
Inductive VERBOSITY := NONE | LOW | HIGH.

Record t := mk { verbosity : VERBOSITY }.

Definition new (v : option VERBOSITY) : t :=
  mk (match v with Some x => x | None => NONE end).

(** [log(str, ...args)] on a console. *)
Definition log (l : t) (str : string) (args : list string) (console : list string)
  : list string :=
  match verbosity l with
  | LOW => console ++ [str]
  | HIGH => (console ++ [str]) ++ args
  | NONE => console
  end.
End Logger.

(** ** The page and the worker object *)

Record Page := mkPage {
  console : list string;
  constructed : list (MediaStream * Options);
  objectURLs : list (option Blob);
  downloads : list (string * Blob)
}.

Record VideoDownloadWorker := mkWorker {
  logger : Logger.t;
  fps : Z;
  filename : string;
  options : Options;
  mimeType : string;
  video : HTMLVideoElement;
  mediaRecorder : option MediaRecorder;
  recordedChunks : list Blob;
  a : Anchor
}.

Definition set_video (v : HTMLVideoElement) (w : VideoDownloadWorker) :=
  mkWorker (logger w) (fps w) (filename w) (options w) (mimeType w) v
           (mediaRecorder w) (recordedChunks w) (a w).

Definition set_mediaRecorder (r : option MediaRecorder) (w : VideoDownloadWorker) :=
  mkWorker (logger w) (fps w) (filename w) (options w) (mimeType w) (video w)
           r (recordedChunks w) (a w).

Definition set_recordedChunks (cs : list Blob) (w : VideoDownloadWorker) :=
  mkWorker (logger w) (fps w) (filename w) (options w) (mimeType w) (video w)
           (mediaRecorder w) cs (a w).

Definition set_a (an : Anchor) (w : VideoDownloadWorker) :=
  mkWorker (logger w) (fps w) (filename w) (options w) (mimeType w) (video w)
           (mediaRecorder w) (recordedChunks w) an.

Definition set_console (c : list string) (p : Page) :=
  mkPage c (constructed p) (objectURLs p) (downloads p).

Definition set_constructed (c : list (MediaStream * Options)) (p : Page) :=
  mkPage (console p) c (objectURLs p) (downloads p).

Definition set_objectURLs (u : list (option Blob)) (p : Page) :=
  mkPage (console p) (constructed p) u (downloads p).

Definition set_downloads (d : list (string * Blob)) (p : Page) :=
  mkPage (console p) (constructed p) (objectURLs p) d.

(** ** The monad of handlers *)

Record St := mkSt { this : VideoDownloadWorker; page : Page }.

Definition M (A : Type) : Type := St -> Completion A * St.

Definition ret {A} (x : A) : M A := fun s => (Normal x, s).

Definition bind {A B} (m : M A) (k : A -> M B) : M B :=
  fun s => match m s with
           | (Normal x, s') => k x s'
           | (Throw e, s') => (Throw e, s')
           end.

Definition throw {A} (e : Exn) : M A := fun s => (Throw e, s).

Definition get_this : M VideoDownloadWorker := fun s => (Normal (this s), s).
Definition get_page : M Page := fun s => (Normal (page s), s).
Definition modify_this (f : VideoDownloadWorker -> VideoDownloadWorker) : M unit :=
  fun s => (Normal tt, mkSt (f (this s)) (page s)).
Definition modify_page (f : Page -> Page) : M unit :=
  fun s => (Normal tt, mkSt (this s) (f (page s))).

Definition lift {A} (c : Completion A) : M A := fun s => (c, s).

Declare Scope js_scope.
Delimit Scope js_scope with js.
Notation "'let!' x ':=' m 'in' k" := (bind m (fun x => k))
  (at level 10, x name, m at level 100, k at level 200) : js_scope.
Notation "m '>>' k" := (bind m (fun _ => k))
  (at level 100, k at level 200, right associativity) : js_scope.
Local Open Scope js_scope.

(** [this.#logger.log(str, ...args)] *)
Definition log (str : string) (args : list string) : M unit :=
  let! w := get_this in
  modify_page (fun p => set_console (Logger.log (logger w) str args (console p)) p).

(** ** MediaRecorder methods (the state changes of the MediaStream Recording
    API; the events they cause are delivered by the browser later) *)

Definition MediaRecorder_start (mr : MediaRecorder) : Completion MediaRecorder :=
  match state mr with
  | RecordingState.inactive => Normal (with_state RecordingState.recording mr)
  | _ => Throw InvalidStateError
  end.

Definition MediaRecorder_stop (mr : MediaRecorder) : Completion MediaRecorder :=
  Normal (with_state RecordingState.inactive mr).

Definition MediaRecorder_pause (mr : MediaRecorder) : Completion MediaRecorder :=
  match state mr with
  | RecordingState.inactive => Throw InvalidStateError
  | _ => Normal (with_state RecordingState.paused mr)
  end.

Definition MediaRecorder_resume (mr : MediaRecorder) : Completion MediaRecorder :=
  match state mr with
  | RecordingState.inactive => Throw InvalidStateError
  | _ => Normal (with_state RecordingState.recording mr)
  end.

(** [this.#mediaRecorder.f()]: a method call on the recorder the worker holds. *)
Definition on_mediaRecorder (f : MediaRecorder -> Completion MediaRecorder) : M unit :=
  let! w := get_this in
  match mediaRecorder w with
  | None => throw TypeError
  | Some mr =>
      let! mr' := lift (f mr) in
      modify_this (set_mediaRecorder (Some mr'))
  end.

(** Truthiness of a field that is [undefined] or an object. *)
Definition truthy {A} (o : option A) : bool :=
  match o with Some _ => true | None => false end.

(** [this.#mediaRecorder.state == s], read when the field holds a recorder. *)
Definition state_is (s : RecordingState.t) (w : VideoDownloadWorker) : bool :=
  match mediaRecorder w with
  | None => false
  | Some mr => RecordingState.eqb (state mr) s
  end.

(** ** Blob URLs and the anchor *)

Definition createObjectURL (b : Blob) : M nat :=
  let! p := get_page in
  modify_page (set_objectURLs (objectURLs p ++ [Some b])) >>
  ret (length (objectURLs p)).

Definition revokeObjectURL (url : nat) : M unit :=
  modify_page (fun p => set_objectURLs (<[url := None]> (objectURLs p)) p).

(** [a.click()]: an anchor with a [download] attribute saves what its [href]
    resolves to under that name. *)
Definition click : M unit :=
  let! w := get_this in
  modify_page (fun p =>
    match href (a w) with
    | Some url =>
        match objectURLs p !! url with
        | Some (Some b) => set_downloads (downloads p ++ [(download (a w), b)]) p
        | _ => p
        end
    | None => p
    end).

Definition appendChild_a : M unit :=
  modify_this (fun w => set_a (mkAnchor (style (a w)) (href (a w)) (download (a w)) true) w).

(** [a.parentNode.removeChild(a)] *)
Definition removeChild_a : M unit :=
  let! w := get_this in
  if parentNode (a w)
  then modify_this (fun w => set_a (mkAnchor (style (a w)) (href (a w)) (download (a w)) false) w)
  else throw TypeError.

(** ** VideoDownloadWorker *)

Section Worker.

(** [MediaRecorder.isTypeSupported]: which container formats the browser's
    recorder accepts; the constructor throws on the others. *)
Variable isTypeSupported : string -> bool.

(** The constructor.  An absent optional argument is [None]; the parameter
    defaults read the initialised fields.  The body assigns [#video],
    [#filename] and [#options]; it registers the four video listeners, which
    [handle] below dispatches. *)
Definition new_VideoDownloadWorker (video0 : HTMLVideoElement)
    (filename0 mimeType0 : option string) (options0 : option Options)
  : VideoDownloadWorker :=
  let f_logger := Logger.new (Some Logger.LOW) in
  let f_fps := 0 in
  let f_filename := "cast.webm" in
  let f_options := mkOptions "video/webm; codecs=vp9" in
  let f_mimeType := "video/webm" in
  let filename1 := match filename0 with Some x => x | None => f_filename end in
  let mimeType1 := match mimeType0 with Some x => x | None => f_mimeType end in
  let options1 := match options0 with Some x => x | None => f_options end in
  mkWorker f_logger f_fps filename1 options1 f_mimeType video0 None [] createElement_a.

Definition onDataAvailable (data : Blob) : M unit :=
  (if 0 <? size data
   then modify_this (fun w => set_recordedChunks (recordedChunks w ++ [data]) w)
   else ret tt) >>
  log "data available" ["dataavailable"].

Definition downloadVideo : M unit :=
  let! w := get_this in
  let blob := new_Blob (recordedChunks w) (mimeType w) in
  let! url := createObjectURL blob in
  modify_this (fun w => set_a (mkAnchor "display: none" (Some url) (filename w)
                                        (parentNode (a w))) w) >>
  appendChild_a >>
  click >>
  revokeObjectURL url >>
  removeChild_a >>
  modify_this (set_mediaRecorder None) >>
  modify_this (set_recordedChunks []) >>
  log "downloading video" [].

Definition captureStream (fps0 : Z) : M MediaStream :=
  let! w := get_this in
  if capturable (video w) then ret (mkStream fps0) else throw NotSupportedError.

Definition new_MediaRecorder (stream : MediaStream) (options0 : Options) : M MediaRecorder :=
  if isTypeSupported (opt_mimeType options0)
  then
    let! p := get_page in
    modify_page (set_constructed (constructed p ++ [(stream, options0)])) >>
    ret (mkRecorder (length (constructed p)) RecordingState.inactive stream options0)
  else throw NotSupportedError.

(** The new recorder's [ondataavailable] and [onstop] are this worker's
    [onDataAvailable] and [downloadVideo]: see [handle]. *)
Definition newMediaRecorder : M MediaRecorder :=
  let! w := get_this in
  let! stream := captureStream (fps w) in
  let! mediaRecorder0 := new_MediaRecorder stream (options w) in
  ret mediaRecorder0.

Definition start : M unit :=
  let! w := get_this in
  if negb (truthy (mediaRecorder w)) || state_is RecordingState.inactive w
  then
    let! mr := newMediaRecorder in
    modify_this (set_mediaRecorder (Some mr)) >>
    let! w := get_this in
    if playing (video w)
    then on_mediaRecorder MediaRecorder_start >> log "recording" []
    else log "stream not playing, waiting to start recording" []
  else if state_is RecordingState.paused w
  then on_mediaRecorder MediaRecorder_resume >> log "resuming paused recording" []
  else log "already recording" [].

Definition stop : M unit :=
  let! w := get_this in
  if truthy (mediaRecorder w) && negb (state_is RecordingState.inactive w)
  then on_mediaRecorder MediaRecorder_stop >> log "stop active or paused media recording" []
  else ret tt.

Definition pause : M unit :=
  let! w := get_this in
  if truthy (mediaRecorder w) && state_is RecordingState.recording w
  then on_mediaRecorder MediaRecorder_pause >> log "pause media recording" []
  else ret tt.

Definition onPlayingEvent (event : string) : M unit :=
  let! w := get_this in
  (if truthy (mediaRecorder w) then start else ret tt) >>
  log "video is now playing" [event].

Definition onStalledEvent (event : string) : M unit :=
  pause >> log "video is stalled" [event].

Definition onPauseEvent (event : string) : M unit :=
  pause >> log "video is paused" [event].

Definition onEndedEvent (event : string) : M unit :=
  stop >> log "video ended" [event].

(** ** Events of one worker *)

(** What can happen to a worker: a call of a public method, an event of its
    video element, an event of a recorder it created, or a change made by the
    browser (the video element's attributes; a recorder that the browser
    inactivates itself when its stream ends). *)
Inductive Event :=
| CallStart
| CallStop
| CallPause
| VideoPlaying
| VideoPause
| VideoStalled
| VideoEnded
| DataAvailable (data : Blob)
| RecorderStop
| SourceChange (v : HTMLVideoElement)
| RecorderInactivated.

Definition handle (e : Event) : M unit :=
  match e with
  | CallStart => start
  | CallStop => stop
  | CallPause => pause
  | VideoPlaying => onPlayingEvent "playing"
  | VideoPause => onPauseEvent "pause"
  | VideoStalled => onStalledEvent "stalled"
  | VideoEnded => onEndedEvent "ended"
  | DataAvailable data => onDataAvailable data
  | RecorderStop => downloadVideo
  | SourceChange v => modify_this (set_video v)
  | RecorderInactivated =>
      modify_this (fun w =>
        set_mediaRecorder (with_state RecordingState.inactive <$> mediaRecorder w) w)
  end.

(** One turn of the event loop: an exception that a handler lets escape ends
    that handler only. *)
Definition dispatch (e : Event) (s : St) : St := snd (handle e s).

Definition run (evs : list Event) (s : St) : St := fold_left (fun s e => dispatch e s) evs s.

(** The states of section 4.2 of the specification, read off the worker.
    Between a call of [stop()] and the recorder's stop event the worker still
    holds its recorder, now inactive, and reads as Armed. *)
Inductive Phase := Idle | Armed | Recording | Paused.

Definition phase (w : VideoDownloadWorker) : Phase :=
  match mediaRecorder w with
  | None => Idle
  | Some mr =>
      match state mr with
      | RecordingState.inactive => Armed
      | RecordingState.recording => Recording
      | RecordingState.paused => Paused
      end
  end.

(** ** VideoDownloader *)

(** [#videos] is read by the constructor only; the object is its registry. *)
Record VideoDownloader := mkDownloader { workers : list VideoDownloadWorker }.

(** The constructor: one worker per video of the page, in document order. *)
Definition new_VideoDownloader (videos : list HTMLVideoElement) : VideoDownloader :=
  mkDownloader
    (fold_left (fun (ws : list VideoDownloadWorker) v =>
                  ws ++ [new_VideoDownloadWorker v None None None]) videos []).

(** [for (const worker of this.#workers) { worker.m(); }]: an exception
    thrown by the body leaves the loop. *)
Fixpoint for_of (body : M unit) (ws : list VideoDownloadWorker) (p : Page)
  : Completion unit * (list VideoDownloadWorker * Page) :=
  match ws with
  | [] => (Normal tt, ([], p))
  | w :: rest =>
      match body (mkSt w p) with
      | (Normal _, s) =>
          let '(c, (rest', p')) := for_of body rest (page s) in
          (c, (this s :: rest', p'))
      | (Throw e, s) => (Throw e, (this s :: rest, page s))
      end
  end.

Definition VideoDownloader_start (d : VideoDownloader) (p : Page)
  : Completion unit * (VideoDownloader * Page) :=
  let '(c, (ws, p')) := for_of start (workers d) p in (c, (mkDownloader ws, p')).

Definition VideoDownloader_stop (d : VideoDownloader) (p : Page)
  : Completion unit * (VideoDownloader * Page) :=
  let '(c, (ws, p')) := for_of stop (workers d) p in (c, (mkDownloader ws, p')).

(** ** Reasoning about handlers *)

(** A relation between the state before a computation and the state after
    it, whether the computation returns or throws. *)
Definition preserves (R : St -> St -> Prop) {A} (m : M A) : Prop :=
  forall s, R s (snd (m s)).

(** The handler leaves the list of downloads as it is. *)
Definition same_downloads (s s' : St) : Prop :=
  downloads (page s') = downloads (page s).

(** Every buffered chunk is non-empty, if that held before. *)
Definition nonempty_chunks (w : VideoDownloadWorker) : Prop :=
  Forall (fun c => 0 < size c) (recordedChunks w).

Definition keeps_nonempty (s s' : St) : Prop :=
  nonempty_chunks (this s) -> nonempty_chunks (this s').

(** ** The claims of the specification that the script does not meet, as
    the specification states them *)

(** Fan-out isolation: [startAll()] returns normally and every worker of the
    registry has received [start()]. *)
Definition fanout_isolated (d : VideoDownloader) (p : Page) : Prop :=
  let r := VideoDownloader_start d p in
  fst r = Normal tt /\
  Forall2 (fun w w' => exists q, w' = this (dispatch CallStart (mkSt w q)))
          (workers d) (workers (fst (snd r))).

(** Armed, "playing": Recording on the encoder that is already there. *)
Definition playing_reuses_encoder (s : St) : Prop :=
  phase (this s) = Armed ->
  let s' := dispatch VideoPlaying s in
  phase (this s') = Recording /\
  rec_id <$> mediaRecorder (this s') = rec_id <$> mediaRecorder (this s) /\
  constructed (page s') = constructed (page s).

(** A source that is not playback-ready: [start()] arms, [stop()] then
    releases the encoder, and nothing is downloaded. *)
Definition stop_from_Armed_releases (s : St) : Prop :=
  let s1 := dispatch CallStart s in
  let s2 := dispatch CallStop s1 in
  phase (this s1) = Armed /\ recordedChunks (this s1) = [] /\
  phase (this s2) = Idle /\ downloads (page s2) = downloads (page s).

(** Encoder instantiation fails: the worker stays Idle, the failure is
    written to the log and [start()] returns. *)
Definition open_failure_logged (s : St) : Prop :=
  let r := start s in
  phase (this (snd r)) = Idle /\
  (exists msgs, msgs <> [] /\ console (page (snd r)) = console (page s) ++ msgs) /\
  fst r = Normal tt.

(** ** Sample pages *)

Definition still_video : HTMLVideoElement := mkVideo 0%Q true false 0 true.
Definition running_video : HTMLVideoElement := mkVideo (5 # 2)%Q false false 4 true.
Definition opaque_video : HTMLVideoElement := mkVideo (5 # 2)%Q false false 4 false.

Definition blank_page : Page := mkPage [] [] [] [].

Definition chunk_a : Blob := mkBlob [x1a; x45; xdf; xa3] "video/webm;codecs=vp9".
Definition chunk_b : Blob := mkBlob [x1f; x43; xb6] "video/webm;codecs=vp9".
Definition chunk_empty : Blob := mkBlob [] "video/webm;codecs=vp9".

(** A browser whose recorder accepts the WebM formats only. *)
Definition webm_only (type : string) : bool := String.prefix "video/webm" type.

(** A page with one worker, constructed on the given video with the defaults. *)
Definition fresh (v : HTMLVideoElement) : St :=
  mkSt (new_VideoDownloadWorker v None None None) blank_page.

(** A worker recording a playing video. *)
Definition recording_sample : St := run [CallStart] (fresh running_video).

(** A worker armed on a still video that has since begun to play. *)
Definition armed_sample : St :=
  run [CallStart; SourceChange running_video] (fresh still_video).

(** A session on a playing video: two chunks, then [stop()] and the
    recorder's stop event. *)
Definition session_sample : list Event :=
  [CallStart; DataAvailable chunk_a; DataAvailable chunk_b; CallStop; RecorderStop].

(** Events and calls other than [start()]. *)
Definition startless_sample : list Event :=
  [VideoPlaying; VideoStalled; CallStop; DataAvailable chunk_a; VideoEnded;
   CallPause; VideoPlaying].

(** A page with three videos; the second one cannot be captured. *)
Definition registry_sample : VideoDownloader :=
  new_VideoDownloader [still_video; opaque_video; running_video].

(** ** What a handler may change *)

(** The configuration of a worker: the fields set when it is constructed. *)
Definition same_config (w w' : VideoDownloadWorker) : Prop :=
  logger w' = logger w /\ fps w' = fps w /\ filename w' = filename w /\
  options w' = options w /\ mimeType w' = mimeType w.

(** No blob URL is left registered and the anchor is out of the page. *)
Definition released (s : St) : Prop :=
  Forall (fun u => u = None) (objectURLs (page s)) /\ parentNode (a (this s)) = false.

(** The console is only extended, and not at all by a silent logger. *)
Definition console_grows (s s' : St) : Prop :=
  match Logger.verbosity (logger (this s)) with
  | Logger.NONE => console (page s') = console (page s)
  | _ => console (page s) `prefix_of` console (page s')
  end.

(** Recorders are only added, each on a stream captured at the worker's frame
    rate and with the worker's options. *)
Definition constructs_from_config (s s' : St) : Prop :=
  exists added,
    constructed (page s') = constructed (page s) ++ added /\
    Forall (fun c => c = (mkStream (fps (this s)), options (this s))) added.

(** Downloads are only added, each under the worker's file name and tagged
    with the worker's container format. *)
Definition downloads_from_config (s s' : St) : Prop :=
  exists added,
    downloads (page s') = downloads (page s) ++ added /\
    Forall (fun d => fst d = filename (this s) /\ blob_type (snd d) = mimeType (this s))
           added.

Definition frame (s s' : St) : Prop :=
  same_config (this s) (this s') /\
  console_grows s s' /\
  (released s -> released s') /\
  constructs_from_config s s' /\
  downloads_from_config s s'.

(** The number of recorder stop events in a sequence of events. *)
Fixpoint stop_events (evs : list Event) : nat :=
  match evs with
  | [] => 0%nat
  | RecorderStop :: rest => S (stop_events rest)
  | _ :: rest => stop_events rest
  end.

(** What a call of [start()] or [stop()] leaves alone in a worker. *)
Definition same_source (w w' : VideoDownloadWorker) : Prop :=
  same_config w w' /\ video w' = video w /\ recordedChunks w' = recordedChunks w.

(** A worker paused by a stall of its video. *)
Definition paused_sample : St := run [CallStart; VideoStalled] (fresh running_video).

(** A worker armed on a video that cannot be captured any more. *)
Definition armed_opaque_sample : St :=
  run [CallStart; SourceChange opaque_video] (fresh still_video).

(** ** Properties *)

Lemma Qpositive_spec (q : Q) : Qpositive q = true <-> (0 < q)%Q.
Proof.
  unfold Qpositive, Qlt. simpl. rewrite Z.mul_1_r. apply Z.ltb_lt.
Qed.

(** The getter is true exactly on a video that has advanced, is neither
    paused nor ended, and has data beyond the current position. *)
Lemma playing_spec (v : HTMLVideoElement) :
  playing v = true <->
  (0 < currentTime v)%Q /\ paused v = false /\ ended v = false /\ 2 < readyState v.
Proof.
  unfold playing. rewrite !andb_true_iff, !negb_true_iff, Qpositive_spec, Z.ltb_lt.
  tauto.
Qed.

Section Preservation.

Variable R : St -> St -> Prop.
Hypothesis R_refl : forall s, R s s.
Hypothesis R_trans : forall s1 s2 s3, R s1 s2 -> R s2 s3 -> R s1 s3.

Lemma preserves_ret {A} (x : A) : preserves R (ret x).
Proof. intros s. apply R_refl. Qed.

Lemma preserves_throw {A} (e : Exn) : preserves R (@throw A e).
Proof. intros s. apply R_refl. Qed.

Lemma preserves_lift {A} (c : Completion A) : preserves R (lift c).
Proof. intros s. apply R_refl. Qed.

Lemma preserves_get_this : preserves R get_this.
Proof. intros s. apply R_refl. Qed.

Lemma preserves_get_page : preserves R get_page.
Proof. intros s. apply R_refl. Qed.

Lemma preserves_bind {A B} (m : M A) (k : A -> M B) :
  preserves R m -> (forall x, preserves R (k x)) -> preserves R (bind m k).
Proof.
  intros Hm Hk s. unfold bind. specialize (Hm s).
  destruct (m s) as [[x|e] s1]; simpl in *; [|exact Hm].
  eapply R_trans; [exact Hm|apply Hk].
Qed.

Lemma preserves_if {A} (b : bool) (m1 m2 : M A) :
  preserves R m1 -> preserves R m2 -> preserves R (if b then m1 else m2).
Proof. destruct b; auto. Qed.

(** When the primitive updates respect [R], so do the compound operations. *)
Hypothesis R_modify_page_frame :
  forall f, (forall p, downloads (f p) = downloads p) -> preserves R (modify_page f).
Hypothesis R_set_mediaRecorder : forall r, preserves R (modify_this (set_mediaRecorder r)).

Lemma preserves_log str args : preserves R (log str args).
Proof.
  unfold log. apply preserves_bind; [apply preserves_get_this|intros w].
  apply R_modify_page_frame. reflexivity.
Qed.

Lemma preserves_on_mediaRecorder f : preserves R (on_mediaRecorder f).
Proof.
  unfold on_mediaRecorder. apply preserves_bind; [apply preserves_get_this|intros w].
  destruct (mediaRecorder w); [|apply preserves_throw].
  apply preserves_bind; [apply preserves_lift|intros mr']. apply R_set_mediaRecorder.
Qed.

Lemma preserves_newMediaRecorder : preserves R newMediaRecorder.
Proof.
  unfold newMediaRecorder, captureStream, new_MediaRecorder.
  apply preserves_bind; [apply preserves_get_this|intros w].
  apply preserves_bind.
  { apply preserves_bind; [apply preserves_get_this|intros w'].
    apply preserves_if; [apply preserves_ret|apply preserves_throw]. }
  intros stream. apply preserves_bind; [|intros; apply preserves_ret].
  apply preserves_if; [|apply preserves_throw].
  apply preserves_bind; [apply preserves_get_page|intros p].
  apply preserves_bind; [|intros; apply preserves_ret].
  apply R_modify_page_frame. reflexivity.
Qed.

Lemma preserves_start : preserves R start.
Proof.
  unfold start. apply preserves_bind; [apply preserves_get_this|intros w].
  repeat apply preserves_if.
  - apply preserves_bind; [apply preserves_newMediaRecorder|intros mr].
    apply preserves_bind; [apply R_set_mediaRecorder|intros _].
    apply preserves_bind; [apply preserves_get_this|intros w'].
    apply preserves_if; [|apply preserves_log].
    apply preserves_bind; [apply preserves_on_mediaRecorder|intros; apply preserves_log].
  - apply preserves_bind; [apply preserves_on_mediaRecorder|intros; apply preserves_log].
  - apply preserves_log.
Qed.

Lemma preserves_stop : preserves R stop.
Proof.
  unfold stop. apply preserves_bind; [apply preserves_get_this|intros w].
  apply preserves_if; [|apply preserves_ret].
  apply preserves_bind; [apply preserves_on_mediaRecorder|intros; apply preserves_log].
Qed.

Lemma preserves_pause : preserves R pause.
Proof.
  unfold pause. apply preserves_bind; [apply preserves_get_this|intros w].
  apply preserves_if; [|apply preserves_ret].
  apply preserves_bind; [apply preserves_on_mediaRecorder|intros; apply preserves_log].
Qed.

Lemma preserves_video_events :
  preserves R (onPlayingEvent "playing") /\ preserves R (onPauseEvent "pause") /\
  preserves R (onStalledEvent "stalled") /\ preserves R (onEndedEvent "ended").
Proof.
  unfold onPlayingEvent, onPauseEvent, onStalledEvent, onEndedEvent.
  repeat split.
  - apply preserves_bind; [apply preserves_get_this|intros w].
    apply preserves_bind; [|intros; apply preserves_log].
    apply preserves_if; [apply preserves_start|apply preserves_ret].
  - apply preserves_bind; [apply preserves_pause|intros; apply preserves_log].
  - apply preserves_bind; [apply preserves_pause|intros; apply preserves_log].
  - apply preserves_bind; [apply preserves_stop|intros; apply preserves_log].
Qed.

End Preservation.

Lemma phase_Recording w :
  phase w = Recording ->
  exists mr, mediaRecorder w = Some mr /\ state mr = RecordingState.recording.
Proof.
  unfold phase. destruct (mediaRecorder w) as [mr|]; [|discriminate].
  destruct (state mr) eqn:E; try discriminate. eauto.
Qed.

(** [start()] of a Recording worker only logs. *)
Lemma start_Recording_eq (s : St) :
  phase (this s) = Recording ->
  start s =
    (Normal tt,
     mkSt (this s)
          (set_console (Logger.log (logger (this s)) "already recording" []
                                   (console (page s))) (page s))).
Proof.
  intros H. destruct (phase_Recording _ H) as (mr & Hmr & Hst).
  unfold start, bind, get_this, state_is. rewrite Hmr, Hst. reflexivity.
Qed.

(** C6. [start()] while Recording does nothing but log: the worker object,
    and so its encoder and its chunk buffer, are unchanged, no recorder is
    constructed and nothing is downloaded. *)
Theorem start_while_Recording_is_noop (s : St) :
  phase (this s) = Recording ->
  exists s',
    start s = (Normal tt, s') /\
    this s' = this s /\
    phase (this s') = Recording /\
    mediaRecorder (this s') = mediaRecorder (this s) /\
    recordedChunks (this s') = recordedChunks (this s) /\
    constructed (page s') = constructed (page s) /\
    downloads (page s') = downloads (page s) /\
    console (page s') =
      Logger.log (logger (this s)) "already recording" [] (console (page s)).
Proof.
  intros H. eexists. split; [apply start_Recording_eq; exact H|].
  simpl. rewrite H. auto 10.
Qed.

Lemma downloadVideo_eq (s : St) :
  let w := this s in
  let p := page s in
  let blob := new_Blob (recordedChunks w) (mimeType w) in
  let url := length (objectURLs p) in
  downloadVideo s =
    (Normal tt,
     mkSt (mkWorker (logger w) (fps w) (filename w) (options w) (mimeType w) (video w)
                    None [] (mkAnchor "display: none" (Some url) (filename w) false))
          (mkPage (Logger.log (logger w) "downloading video" [] (console p))
                  (constructed p)
                  (<[url := None]> (objectURLs p ++ [Some blob]))
                  (downloads p ++ [(filename w, blob)]))).
Proof.
  destruct s as [w p]. simpl.
  unfold downloadVideo, createObjectURL, appendChild_a, click, revokeObjectURL,
    removeChild_a, log, bind, get_this, get_page, modify_this, modify_page, ret.
  simpl. rewrite list_lookup_middle by reflexivity. reflexivity.
Qed.

Lemma onDataAvailable_eq (data : Blob) (s : St) :
  onDataAvailable data s =
    (Normal tt,
     mkSt (if 0 <? size data
           then set_recordedChunks (recordedChunks (this s) ++ [data]) (this s)
           else this s)
          (set_console (Logger.log (logger (this s)) "data available" ["dataavailable"]
                                   (console (page s))) (page s))).
Proof.
  destruct s as [w p].
  unfold onDataAvailable, log, bind, get_this, modify_this, modify_page, ret.
  destruct (0 <? size data); reflexivity.
Qed.

Lemma same_downloads_refl s : same_downloads s s.
Proof. reflexivity. Qed.

Lemma same_downloads_trans s1 s2 s3 :
  same_downloads s1 s2 -> same_downloads s2 s3 -> same_downloads s1 s3.
Proof. unfold same_downloads. congruence. Qed.

Lemma same_downloads_modify_page f :
  (forall p, downloads (f p) = downloads p) -> preserves same_downloads (modify_page f).
Proof. intros Hf s. apply Hf. Qed.

Lemma same_downloads_modify_this f : preserves same_downloads (modify_this f).
Proof. intros s. reflexivity. Qed.

Lemma keeps_nonempty_refl s : keeps_nonempty s s.
Proof. intros H. exact H. Qed.

Lemma keeps_nonempty_trans s1 s2 s3 :
  keeps_nonempty s1 s2 -> keeps_nonempty s2 s3 -> keeps_nonempty s1 s3.
Proof. unfold keeps_nonempty. auto. Qed.

Lemma keeps_nonempty_modify_page f :
  (forall p, downloads (f p) = downloads p) -> preserves keeps_nonempty (modify_page f).
Proof. intros _ s H. exact H. Qed.

Lemma keeps_nonempty_set_mediaRecorder r :
  preserves keeps_nonempty (modify_this (set_mediaRecorder r)).
Proof. intros s H. exact H. Qed.

(** Only the recorder's stop event adds a download. *)
Lemma dispatch_same_downloads e s :
  e <> RecorderStop -> same_downloads s (dispatch e s).
Proof.
  intros He. unfold dispatch.
  pose proof (preserves_video_events same_downloads same_downloads_refl
                same_downloads_trans same_downloads_modify_page
                (fun r => same_downloads_modify_this _)) as (Hpl & Hpa & Hst & Hen).
  destruct e; cbn [handle].
  - apply (preserves_start same_downloads same_downloads_refl same_downloads_trans
             same_downloads_modify_page (fun r => same_downloads_modify_this _)).
  - apply (preserves_stop same_downloads same_downloads_refl same_downloads_trans
             same_downloads_modify_page (fun r => same_downloads_modify_this _)).
  - apply (preserves_pause same_downloads same_downloads_refl same_downloads_trans
             same_downloads_modify_page (fun r => same_downloads_modify_this _)).
  - apply Hpl.
  - apply Hpa.
  - apply Hst.
  - apply Hen.
  - rewrite onDataAvailable_eq. reflexivity.
  - congruence.
  - reflexivity.
  - reflexivity.
Qed.

(** No handler puts an empty chunk into the buffer. *)
Lemma dispatch_keeps_nonempty e s : keeps_nonempty s (dispatch e s).
Proof.
  unfold dispatch.
  pose proof (preserves_video_events keeps_nonempty keeps_nonempty_refl
                keeps_nonempty_trans keeps_nonempty_modify_page
                keeps_nonempty_set_mediaRecorder) as (Hpl & Hpa & Hst & Hen).
  destruct e; cbn [handle].
  - apply (preserves_start keeps_nonempty keeps_nonempty_refl keeps_nonempty_trans
             keeps_nonempty_modify_page keeps_nonempty_set_mediaRecorder).
  - apply (preserves_stop keeps_nonempty keeps_nonempty_refl keeps_nonempty_trans
             keeps_nonempty_modify_page keeps_nonempty_set_mediaRecorder).
  - apply (preserves_pause keeps_nonempty keeps_nonempty_refl keeps_nonempty_trans
             keeps_nonempty_modify_page keeps_nonempty_set_mediaRecorder).
  - apply Hpl.
  - apply Hpa.
  - apply Hst.
  - apply Hen.
  - rewrite onDataAvailable_eq. unfold keeps_nonempty, nonempty_chunks. simpl.
    intros H. destruct (0 <? size data) eqn:E; [|exact H].
    simpl. apply Forall_app. split; [exact H|].
    constructor; [|constructor]. apply Z.ltb_lt. exact E.
  - rewrite downloadVideo_eq. intros _. constructor.
  - intros H. exact H.
  - intros H. exact H.
Qed.

Lemma run_app evs1 evs2 s : run (evs1 ++ evs2) s = run evs2 (run evs1 s).
Proof. unfold run. apply fold_left_app. Qed.

Lemma run_cons e evs s : run (e :: evs) s = run evs (dispatch e s).
Proof. reflexivity. Qed.

Lemma run_keeps_nonempty evs s : keeps_nonempty s (run evs s).
Proof.
  revert s. induction evs as [|e evs IH]; intros s.
  - apply keeps_nonempty_refl.
  - rewrite run_cons. eapply keeps_nonempty_trans; [apply dispatch_keeps_nonempty|apply IH].
Qed.

(** A download, once made, stays as it is. *)
Lemma run_downloads_prefix evs s :
  downloads (page s) `prefix_of` downloads (page (run evs s)).
Proof.
  revert s. induction evs as [|e evs IH]; intros s.
  - reflexivity.
  - rewrite run_cons. etrans; [|apply IH].
    destruct e;
      try (match goal with
           | |- context [dispatch ?e s] =>
               assert (e <> RecorderStop) as He by discriminate;
               pose proof (dispatch_same_downloads e s He) as H;
               unfold same_downloads in H; rewrite H; reflexivity
           end).
    unfold dispatch, handle. rewrite downloadVideo_eq. simpl.
    apply prefix_app_r. reflexivity.
Qed.

Lemma phase_Idle w : phase w = Idle -> mediaRecorder w = None.
Proof.
  unfold phase. destruct (mediaRecorder w) as [mr|]; [|reflexivity].
  destruct (state mr); discriminate.
Qed.

Lemma phase_Armed w :
  phase w = Armed ->
  exists mr, mediaRecorder w = Some mr /\ state mr = RecordingState.inactive.
Proof.
  unfold phase. destruct (mediaRecorder w) as [mr|]; [|discriminate].
  destruct (state mr) eqn:E; try discriminate. eauto.
Qed.

(** The first branch of [start()] is taken exactly when the worker is Idle
    or Armed. *)
Lemma start_guard w :
  negb (truthy (mediaRecorder w)) || state_is RecordingState.inactive w =
  match phase w with Idle | Armed => true | _ => false end.
Proof.
  unfold phase, state_is. destruct (mediaRecorder w) as [mr|]; [|reflexivity].
  simpl. destruct (state mr); reflexivity.
Qed.

Lemma stop_guard w :
  truthy (mediaRecorder w) && negb (state_is RecordingState.inactive w) =
  match phase w with Recording | Paused => true | _ => false end.
Proof.
  unfold phase, state_is. destruct (mediaRecorder w) as [mr|]; [|reflexivity].
  simpl. destruct (state mr); reflexivity.
Qed.

Lemma pause_guard w :
  truthy (mediaRecorder w) && state_is RecordingState.recording w =
  match phase w with Recording => true | _ => false end.
Proof.
  unfold phase, state_is. destruct (mediaRecorder w) as [mr|]; [|reflexivity].
  simpl. destruct (state mr); reflexivity.
Qed.

(** [start()] of an Idle or Armed worker whose source can be captured:
    a recorder is constructed and stored, and started if the source plays. *)
Lemma start_fresh_eq (s : St) :
  let w := this s in
  let p := page s in
  phase w = Idle \/ phase w = Armed ->
  capturable (video w) = true ->
  isTypeSupported (opt_mimeType (options w)) = true ->
  start s =
    (Normal tt,
     mkSt (set_mediaRecorder
             (Some (mkRecorder (length (constructed p))
                      (if playing (video w) then RecordingState.recording
                       else RecordingState.inactive)
                      (mkStream (fps w)) (options w))) w)
          (mkPage (Logger.log (logger w)
                     (if playing (video w) then "recording"
                      else "stream not playing, waiting to start recording")
                     [] (console p))
                  (constructed p ++ [(mkStream (fps w), options w)])
                  (objectURLs p) (downloads p))).
Proof.
  destruct s as [w p]. simpl. intros Hph Hcap Hsup.
  unfold start, bind, get_this. cbn [this fst snd].
  rewrite start_guard.
  replace (match phase w with Idle | Armed => true | _ => false end) with true
    by (destruct Hph as [-> | ->]; reflexivity).
  unfold newMediaRecorder, captureStream, new_MediaRecorder, bind, get_this, get_page,
    modify_page, modify_this, ret. cbn [this page fst snd].
  rewrite Hcap, Hsup. cbn [this page fst snd video set_mediaRecorder].
  destruct (playing (video w)); reflexivity.
Qed.

(** [start()] of an Idle or Armed worker whose source cannot be captured, or
    whose options the recorder rejects: the exception leaves [start()] and
    nothing has changed. *)
Lemma start_fails_eq (s : St) :
  phase (this s) = Idle \/ phase (this s) = Armed ->
  capturable (video (this s)) = false \/
  isTypeSupported (opt_mimeType (options (this s))) = false ->
  start s = (Throw NotSupportedError, s).
Proof.
  destruct s as [w p]. simpl. intros Hph Hbad.
  unfold start, bind, get_this. cbn [this fst snd].
  rewrite start_guard.
  replace (match phase w with Idle | Armed => true | _ => false end) with true
    by (destruct Hph as [-> | ->]; reflexivity).
  unfold newMediaRecorder, captureStream, new_MediaRecorder, bind, get_this, get_page,
    modify_page, modify_this, ret, throw. cbn [this page fst snd].
  destruct (capturable (video w)); [|reflexivity].
  destruct Hbad as [Hbad|Hbad]; [discriminate|]. rewrite Hbad. reflexivity.
Qed.

(** [stop()] of an Idle or Armed worker does nothing at all. *)
Lemma stop_inert_eq (s : St) :
  phase (this s) = Idle \/ phase (this s) = Armed -> stop s = (Normal tt, s).
Proof.
  destruct s as [w p]. simpl. intros Hph.
  unfold stop, bind, get_this. cbn [this fst snd]. rewrite stop_guard.
  destruct Hph as [-> | ->]; reflexivity.
Qed.

(** [stop()] of a Recording or Paused worker inactivates its recorder. *)
Lemma stop_active_eq (s : St) (mr : MediaRecorder) :
  mediaRecorder (this s) = Some mr ->
  state mr <> RecordingState.inactive ->
  stop s =
    (Normal tt,
     mkSt (set_mediaRecorder (Some (with_state RecordingState.inactive mr)) (this s))
          (set_console (Logger.log (logger (this s))
                          "stop active or paused media recording" [] (console (page s)))
                       (page s))).
Proof.
  destruct s as [w p]. simpl. intros Hmr Hst.
  unfold stop, bind, get_this. cbn [this fst snd]. rewrite stop_guard.
  unfold phase. rewrite Hmr.
  unfold on_mediaRecorder, log, bind, get_this, lift, modify_this, modify_page,
    MediaRecorder_stop.
  destruct (state mr) eqn:E; [congruence| |]; cbn [this page fst snd]; rewrite Hmr;
    reflexivity.
Qed.

(** [pause()] has an effect only while Recording. *)
Lemma pause_inert_eq (s : St) :
  phase (this s) <> Recording -> pause s = (Normal tt, s).
Proof.
  destruct s as [w p]. simpl. intros Hph.
  unfold pause, bind, get_this. cbn [this fst snd]. rewrite pause_guard.
  destruct (phase w); try reflexivity. congruence.
Qed.

Lemma log_eq str args (s : St) :
  log str args s =
    (Normal tt,
     mkSt (this s) (set_console (Logger.log (logger (this s)) str args (console (page s)))
                                (page s))).
Proof. reflexivity. Qed.

Lemma onPlayingEvent_Idle_eq event (s : St) :
  phase (this s) = Idle ->
  onPlayingEvent event s =
    (Normal tt,
     mkSt (this s)
          (set_console (Logger.log (logger (this s)) "video is now playing" [event]
                                   (console (page s))) (page s))).
Proof.
  intros H. apply phase_Idle in H. destruct s as [w p]. simpl in H.
  unfold onPlayingEvent, bind, get_this. cbn [this fst snd]. rewrite H. reflexivity.
Qed.

(** Without a call of [start()], an Idle worker stays Idle and constructs no
    recorder, whatever else happens. *)
Lemma dispatch_stays_Idle e (s : St) :
  e <> CallStart ->
  phase (this s) = Idle ->
  phase (this (dispatch e s)) = Idle /\
  constructed (page (dispatch e s)) = constructed (page s).
Proof.
  intros He H. unfold dispatch. destruct e; cbn [handle].
  - congruence.
  - rewrite stop_inert_eq by auto. auto.
  - rewrite pause_inert_eq by congruence. auto.
  - rewrite onPlayingEvent_Idle_eq by exact H. auto.
  - unfold onPauseEvent, bind. rewrite pause_inert_eq by congruence.
    rewrite log_eq. auto.
  - unfold onStalledEvent, bind. rewrite pause_inert_eq by congruence.
    rewrite log_eq. auto.
  - unfold onEndedEvent, bind. rewrite stop_inert_eq by auto.
    rewrite log_eq. auto.
  - rewrite onDataAvailable_eq. simpl. split; [|reflexivity].
    destruct (0 <? size data); exact H.
  - rewrite downloadVideo_eq. simpl. auto.
  - simpl. auto.
  - simpl. split; [|reflexivity]. apply phase_Idle in H.
    unfold phase. simpl. rewrite H. reflexivity.
Qed.

(** C10. A "playing" event that reaches a worker holding no encoder only
    writes its log line; and as long as [start()] is not called, an Idle
    worker stays Idle and no recorder is constructed, whichever events and
    other calls arrive. *)
Theorem playing_without_encoder_is_noop (s : St) (evs : list Event) :
  phase (this s) = Idle ->
  Forall (fun e => e <> CallStart) evs ->
  handle VideoPlaying s =
    (Normal tt,
     mkSt (this s)
          (set_console (Logger.log (logger (this s)) "video is now playing" ["playing"]
                                   (console (page s))) (page s))) /\
  phase (this (run evs s)) = Idle /\
  constructed (page (run evs s)) = constructed (page s).
Proof.
  intros H Hevs. split.
  - apply onPlayingEvent_Idle_eq. exact H.
  - revert s H. induction Hevs as [|e evs He _ IH]; intros s H.
    + auto.
    + rewrite run_cons.
      destruct (dispatch_stays_Idle e s He H) as [H1 H2].
      destruct (IH _ H1) as [H3 H4]. split; [exact H3|congruence].
Qed.

(** C7. The chunk handler appends the chunk exactly when its size is
    positive; a worker's buffer therefore never holds an empty chunk, and the
    artifact is assembled from that buffer. *)
Theorem zero_byte_chunks_discarded (data : Blob) (s : St) :
  recordedChunks (this (dispatch (DataAvailable data) s)) =
    (if 0 <? size data then recordedChunks (this s) ++ [data]
     else recordedChunks (this s)) /\
  (forall video0 filename0 mimeType0 options0 p evs,
     let s' := run evs (mkSt (new_VideoDownloadWorker video0 filename0 mimeType0 options0) p) in
     nonempty_chunks (this s') /\
     downloads (page (dispatch RecorderStop s')) =
       downloads (page s') ++
       [(filename (this s'), new_Blob (recordedChunks (this s')) (mimeType (this s')))]).
Proof.
  split.
  - unfold dispatch, handle. rewrite onDataAvailable_eq. simpl.
    destruct (0 <? size data); reflexivity.
  - intros. split.
    + apply run_keeps_nonempty. constructor.
    + unfold dispatch, handle. rewrite downloadVideo_eq. reflexivity.
Qed.

(** C9. The recorder's stop event materializes in one step: the artifact is
    the buffer as it stood when the handler began, and the buffer is empty
    afterwards.  A chunk delivered after that lands in the emptied buffer,
    and nothing that happens later changes the artifact already downloaded. *)
Theorem materialization_is_atomic (s : St) (data : Blob) (evs : list Event) :
  let s1 := dispatch RecorderStop s in
  let artifact := new_Blob (recordedChunks (this s)) (mimeType (this s)) in
  downloads (page s1) = downloads (page s) ++ [(filename (this s), artifact)] /\
  recordedChunks (this s1) = [] /\
  recordedChunks (this (dispatch (DataAvailable data) s1)) =
    (if 0 <? size data then [data] else []) /\
  downloads (page (dispatch (DataAvailable data) s1)) = downloads (page s1) /\
  downloads (page (run evs s1)) !! length (downloads (page s)) =
    Some (filename (this s), artifact).
Proof.
  intros s1 artifact.
  assert (Hd : downloads (page s1) = downloads (page s) ++ [(filename (this s), artifact)]).
  { unfold s1, dispatch. cbn [handle]. rewrite downloadVideo_eq. reflexivity. }
  assert (Hc : recordedChunks (this s1) = []).
  { unfold s1, dispatch. cbn [handle]. rewrite downloadVideo_eq. reflexivity. }
  clearbody s1. repeat split.
  - exact Hd.
  - exact Hc.
  - unfold dispatch, handle. rewrite onDataAvailable_eq. simpl.
    destruct (0 <? size data); simpl; rewrite Hc; reflexivity.
  - unfold dispatch, handle. rewrite onDataAvailable_eq. reflexivity.
  - destruct (run_downloads_prefix evs s1) as [later Hl].
    rewrite Hl, Hd, <- app_assoc. apply list_lookup_middle. reflexivity.
Qed.

(** Non-empty chunks delivered in a row are appended in arrival order. *)
Lemma run_chunks (cs : list Blob) (s : St) :
  Forall (fun c => 0 < size c) cs ->
  this (run (map DataAvailable cs) s) =
    set_recordedChunks (recordedChunks (this s) ++ cs) (this s) /\
  downloads (page (run (map DataAvailable cs) s)) = downloads (page s).
Proof.
  intros H. revert s. induction H as [|c cs Hc _ IH]; intros s.
  - simpl. rewrite app_nil_r. destruct s as [[] p]. auto.
  - cbn [map]. rewrite run_cons. destruct (IH (dispatch (DataAvailable c) s)) as [E1 E2].
    rewrite E1, E2. unfold dispatch, handle. rewrite onDataAvailable_eq.
    apply Z.ltb_lt in Hc. rewrite Hc. simpl. rewrite <- app_assoc. auto.
Qed.

(** Chunk deliveries construct no recorder. *)
Lemma run_chunks_constructed (cs : list Blob) (s : St) :
  constructed (page (run (map DataAvailable cs) s)) = constructed (page s).
Proof.
  revert s. induction cs as [|c cs IH]; intros s; [reflexivity|].
  cbn [map]. rewrite run_cons, IH. unfold dispatch, handle.
  rewrite onDataAvailable_eq. reflexivity.
Qed.

(** C5. Round trip: a worker started on a playing source, fed N >= 1
    non-empty chunks and stopped, downloads on the recorder's stop event
    exactly one artifact, made of the bytes of those chunks in arrival order,
    and its buffer is empty immediately afterwards.  The stop event is the
    one [stop()] causes: [stop()] returns having inactivated the very
    recorder that [start()] constructed and that was recording until then,
    and downloads nothing itself; that recorder is the only one of the
    session. *)
Theorem round_trip (s : St) (chunks : list Blob) :
  phase (this s) = Idle ->
  recordedChunks (this s) = [] ->
  playing (video (this s)) = true ->
  capturable (video (this s)) = true ->
  isTypeSupported (opt_mimeType (options (this s))) = true ->
  (1 <= length chunks)%nat ->
  Forall (fun c => 0 < size c) chunks ->
  let s1 := dispatch CallStart s in
  let s2 := run (map DataAvailable chunks) s1 in
  let s3 := dispatch CallStop s2 in
  let s4 := dispatch RecorderStop s3 in
  let artifact := new_Blob chunks (mimeType (this s)) in
  let recorder st :=
    mkRecorder (length (constructed (page s))) st (mkStream (fps (this s)))
               (options (this s)) in
  phase (this s1) = Recording /\
  recordedChunks (this s3) = chunks /\
  downloads (page s3) = downloads (page s) /\
  downloads (page s4) = downloads (page s) ++ [(filename (this s), artifact)] /\
  blob_bytes artifact = concat (map blob_bytes chunks) /\
  recordedChunks (this s4) = [] /\
  phase (this s4) = Idle /\
  mediaRecorder (this s2) = Some (recorder RecordingState.recording) /\
  fst (stop s2) = Normal tt /\
  mediaRecorder (this s3) = Some (recorder RecordingState.inactive) /\
  console (page s3) =
    Logger.log (logger (this s)) "stop active or paused media recording" []
               (console (page s2)) /\
  constructed (page s4) =
    constructed (page s) ++ [(mkStream (fps (this s)), options (this s))].
Proof.
  intros Hph Hbuf Hplay Hcap Hsup _ Hne s1 s2 s3 s4 artifact recorder.
  pose proof (start_fresh_eq s (or_introl Hph) Hcap Hsup) as E1. cbv zeta in E1.
  rewrite Hplay in E1.
  assert (H1 : this s1 = set_mediaRecorder
            (Some (recorder RecordingState.recording)) (this s)).
  { unfold s1, dispatch, handle. rewrite E1. reflexivity. }
  assert (D1 : downloads (page s1) = downloads (page s)).
  { unfold s1, dispatch, handle. rewrite E1. reflexivity. }
  assert (K1 : constructed (page s1) =
               constructed (page s) ++ [(mkStream (fps (this s)), options (this s))]).
  { unfold s1, dispatch, handle. rewrite E1. reflexivity. }
  destruct (run_chunks chunks s1 Hne) as [H2 D2]. fold s2 in H2, D2.
  pose proof (run_chunks_constructed chunks s1) as K2. fold s2 in K2.
  rewrite H1 in H2. cbn [recordedChunks set_mediaRecorder] in H2. rewrite Hbuf in H2.
  cbn [app] in H2.
  assert (E3 : stop s2 = (Normal tt,
            mkSt (set_mediaRecorder
                    (Some (with_state RecordingState.inactive
                       (recorder RecordingState.recording))) (this s2))
                 (set_console (Logger.log (logger (this s2))
                    "stop active or paused media recording" [] (console (page s2)))
                    (page s2)))).
  { apply stop_active_eq; [rewrite H2; reflexivity|discriminate]. }
  assert (H3 : recordedChunks (this s3) = chunks /\ filename (this s3) = filename (this s)
               /\ mimeType (this s3) = mimeType (this s)
               /\ downloads (page s3) = downloads (page s)).
  { unfold s3, dispatch, handle. rewrite E3. cbn [snd this page]. rewrite H2.
    cbn. rewrite D2, D1. auto. }
  destruct H3 as (C3 & F3 & M3 & D3).
  assert (R3 : mediaRecorder (this s3) = Some (recorder RecordingState.inactive)
               /\ console (page s3) =
                    Logger.log (logger (this s)) "stop active or paused media recording"
                               [] (console (page s2))
               /\ constructed (page s3) = constructed (page s2)).
  { unfold s3, dispatch, handle. rewrite E3. cbn [snd this page]. rewrite H2.
    cbn. auto. }
  destruct R3 as (R3 & L3 & K3).
  pose proof (downloadVideo_eq s3) as E4. cbv zeta in E4.
  assert (H4 : s4 = snd (downloadVideo s3)) by reflexivity.
  rewrite E4 in H4. cbn [snd] in H4.
  split_and!.
  - rewrite H1. reflexivity.
  - exact C3.
  - exact D3.
  - rewrite H4. cbn [page downloads]. rewrite D3, F3, C3, M3. reflexivity.
  - reflexivity.
  - rewrite H4. reflexivity.
  - rewrite H4. reflexivity.
  - rewrite H2. reflexivity.
  - rewrite E3. reflexivity.
  - exact R3.
  - exact L3.
  - rewrite H4. cbn [page constructed]. rewrite K3, K2, K1. reflexivity.
Qed.

(** C2, as the script has it.  A "playing" event reaching an Armed worker
    whose source can be captured calls [start()], which constructs a new
    recorder in place of the armed one; the worker is Recording afterwards
    if the source's [playing] getter is true at that moment, and Armed with
    the new recorder otherwise.  The buffer is untouched. *)
Theorem playing_while_Armed_restarts (s : St) :
  phase (this s) = Armed ->
  capturable (video (this s)) = true ->
  isTypeSupported (opt_mimeType (options (this s))) = true ->
  let s' := dispatch VideoPlaying s in
  constructed (page s') =
    constructed (page s) ++ [(mkStream (fps (this s)), options (this s))] /\
  rec_id <$> mediaRecorder (this s') = Some (length (constructed (page s))) /\
  phase (this s') = (if playing (video (this s)) then Recording else Armed) /\
  recordedChunks (this s') = recordedChunks (this s).
Proof.
  intros Hph Hcap Hsup s'.
  pose proof (start_fresh_eq s (or_intror Hph) Hcap Hsup) as E. cbv zeta in E.
  destruct (phase_Armed _ Hph) as (mr & Hmr & _).
  assert (Es : s' = snd (onPlayingEvent "playing" s)) by reflexivity.
  unfold onPlayingEvent, bind, get_this in Es. cbn [this fst snd] in Es.
  rewrite Hmr in Es. cbn [truthy] in Es. rewrite E in Es.
  rewrite log_eq in Es. cbn [snd this page] in Es.
  rewrite Es. cbn. split_and!; try reflexivity.
  unfold phase. cbn. destruct (playing (video (this s))); reflexivity.
Qed.

(** C3, as the script has it.  On a source that is not playback-ready,
    [start()] arms the worker with an empty buffer; [stop()] then changes
    nothing: the worker stays Armed and keeps its encoder, nothing is
    downloaded and nothing is logged. *)
Theorem stop_while_Armed_is_noop (s : St) :
  phase (this s) = Idle ->
  recordedChunks (this s) = [] ->
  playing (video (this s)) = false ->
  capturable (video (this s)) = true ->
  isTypeSupported (opt_mimeType (options (this s))) = true ->
  let s1 := dispatch CallStart s in
  let s2 := dispatch CallStop s1 in
  phase (this s1) = Armed /\
  recordedChunks (this s1) = [] /\
  stop s1 = (Normal tt, s1) /\
  s2 = s1 /\
  phase (this s2) = Armed /\
  downloads (page s2) = downloads (page s).
Proof.
  intros Hph Hbuf Hplay Hcap Hsup s1 s2.
  pose proof (start_fresh_eq s (or_introl Hph) Hcap Hsup) as E. cbv zeta in E.
  rewrite Hplay in E.
  assert (Es : s1 = snd (start s)) by reflexivity. rewrite E in Es. cbn [snd] in Es.
  assert (H1 : phase (this s1) = Armed) by (rewrite Es; reflexivity).
  assert (H2 : stop s1 = (Normal tt, s1)) by (apply stop_inert_eq; auto).
  assert (H3 : s2 = s1) by (unfold s2, dispatch, handle; rewrite H2; reflexivity).
  split_and!; try assumption.
  - rewrite Es. exact Hbuf.
  - rewrite H3. exact H1.
  - rewrite H3, Es. reflexivity.
Qed.

(** C8, as the script has it.  When the encoder cannot be instantiated for
    an Idle worker, [start()] throws to its caller and leaves everything as
    it was: the worker is still Idle and holds no encoder, no recorder has
    been constructed, nothing has been logged, and nothing is retried. *)
Theorem open_failure_propagates (s : St) :
  phase (this s) = Idle ->
  capturable (video (this s)) = false \/
  isTypeSupported (opt_mimeType (options (this s))) = false ->
  start s = (Throw NotSupportedError, s) /\
  phase (this (dispatch CallStart s)) = Idle /\
  mediaRecorder (this (dispatch CallStart s)) = None /\
  constructed (page (dispatch CallStart s)) = constructed (page s) /\
  console (page (dispatch CallStart s)) = console (page s).
Proof.
  intros Hph Hbad.
  pose proof (start_fails_eq s (or_introl Hph) Hbad) as E.
  unfold dispatch, handle. rewrite E. cbn [snd].
  split_and!; auto using phase_Idle.
Qed.

(** [stop()] never throws. *)
Lemma stop_returns (s : St) : fst (stop s) = Normal tt.
Proof.
  destruct (mediaRecorder (this s)) as [mr|] eqn:Hmr.
  - destruct (state mr) eqn:Hst.
    + rewrite stop_inert_eq; [reflexivity|]. right. unfold phase. rewrite Hmr, Hst.
      reflexivity.
    + rewrite (stop_active_eq s mr Hmr) by congruence. reflexivity.
    + rewrite (stop_active_eq s mr Hmr) by congruence. reflexivity.
  - rewrite stop_inert_eq; [reflexivity|]. left. unfold phase. rewrite Hmr. reflexivity.
Qed.

(** [start()] throws only when the recorder cannot be constructed. *)
Lemma start_returns (s : St) :
  capturable (video (this s)) = true ->
  isTypeSupported (opt_mimeType (options (this s))) = true ->
  fst (start s) = Normal tt.
Proof.
  intros Hcap Hsup. destruct (phase (this s)) eqn:Hph.
  - rewrite start_fresh_eq by auto. reflexivity.
  - rewrite start_fresh_eq by auto. reflexivity.
  - rewrite start_Recording_eq by exact Hph. reflexivity.
  - destruct s as [w p]. simpl in *. unfold start, bind, get_this. cbn [this fst snd].
    rewrite start_guard, Hph. unfold phase in Hph. unfold state_is.
    destruct (mediaRecorder w) as [mr|] eqn:Hmr; [|discriminate].
    destruct (state mr) eqn:Hst; try discriminate. cbn [RecordingState.eqb].
    unfold on_mediaRecorder, log, bind, get_this, lift, modify_this, modify_page,
      MediaRecorder_resume. cbn [this page fst snd]. rewrite Hmr, Hst. reflexivity.
Qed.

(** The loop over the registry: when the body returns on every worker, every
    worker is visited. *)
Lemma for_of_returns (body : M unit) (ws : list VideoDownloadWorker) (p : Page) :
  (forall w q, In w ws -> fst (body (mkSt w q)) = Normal tt) ->
  fst (for_of body ws p) = Normal tt /\
  Forall2 (fun w w' => exists q, w' = this (snd (body (mkSt w q))))
          ws (fst (snd (for_of body ws p))).
Proof.
  revert p. induction ws as [|w ws IH]; intros p Hb.
  - simpl. split; [reflexivity|constructor].
  - cbn [for_of]. pose proof (Hb w p (or_introl eq_refl)) as Hw.
    destruct (body (mkSt w p)) as [[[]|e] s] eqn:E; simpl in Hw; [|discriminate].
    destruct (IH (page s) (fun w' q H => Hb w' q (or_intror H))) as [H1 H2].
    destruct (for_of body ws (page s)) as [c [ws' p']]. simpl in *.
    split; [exact H1|]. constructor; [|exact H2].
    exists p. rewrite E. reflexivity.
Qed.

(** The loop over the registry: the first worker on which the body throws
    ends the loop, and the workers behind it are not visited. *)
Lemma for_of_throws (body : M unit) (ws1 : list VideoDownloadWorker)
    (w : VideoDownloadWorker) (ws2 : list VideoDownloadWorker) (p : Page)
    (ws1' : list VideoDownloadWorker) (p1 : Page) (e : Exn) (s : St) :
  for_of body ws1 p = (Normal tt, (ws1', p1)) ->
  body (mkSt w p1) = (Throw e, s) ->
  for_of body (ws1 ++ w :: ws2) p = (Throw e, (ws1' ++ this s :: ws2, page s)).
Proof.
  revert p ws1'. induction ws1 as [|w1 ws1 IH]; intros p ws1' H1 H2.
  - simpl in H1. injection H1 as <- <-. simpl. rewrite H2. reflexivity.
  - cbn [for_of app] in *. destruct (body (mkSt w1 p)) as [[[]|e1] s1]; [|discriminate].
    destruct (for_of body ws1 (page s1)) as [c [r q]] eqn:E.
    injection H1 as -> <- <-.
    rewrite (IH (page s1) r E H2). reflexivity.
Qed.

(** C1, as the script has it.  [startAll()] and [stopAll()] call the workers
    in registry order and catch nothing.  An exception thrown by a worker's
    [start()] leaves [startAll()]: the workers before it have been started,
    the workers after it are not called.  [stop()] never throws, so
    [stopAll()] reaches every worker; and when every source can be captured
    [start()] does not throw either and [startAll()] reaches every worker. *)
Theorem fanout_ends_at_first_throw
    (ws1 : list VideoDownloadWorker) (w : VideoDownloadWorker)
    (ws2 : list VideoDownloadWorker) (p : Page)
    (ws1' : list VideoDownloadWorker) (p1 : Page) (e : Exn) (s : St)
    (d : VideoDownloader) (q : Page) :
  VideoDownloader_start (mkDownloader ws1) p = (Normal tt, (mkDownloader ws1', p1)) ->
  start (mkSt w p1) = (Throw e, s) ->
  VideoDownloader_start (mkDownloader (ws1 ++ w :: ws2)) p =
    (Throw e, (mkDownloader (ws1' ++ this s :: ws2), page s)) /\
  (fst (VideoDownloader_stop d q) = Normal tt /\
   Forall2 (fun w0 w' => exists q0, w' = this (dispatch CallStop (mkSt w0 q0)))
           (workers d) (workers (fst (snd (VideoDownloader_stop d q))))) /\
  (Forall (fun w0 => capturable (video w0) = true /\
                     isTypeSupported (opt_mimeType (options w0)) = true) (workers d) ->
   fanout_isolated d q).
Proof.
  intros H1 H2. split_and!.
  - unfold VideoDownloader_start in *. cbn [workers] in *.
    destruct (for_of start ws1 p) as [c [r p']] eqn:E.
    injection H1 as -> -> ->.
    rewrite (for_of_throws start ws1 w ws2 p ws1' p1 e s E H2). reflexivity.
  - unfold VideoDownloader_stop.
    destruct (for_of_returns stop (workers d) q (fun w0 q0 _ => stop_returns _)) as [R1 _].
    destruct (for_of stop (workers d) q) as [c [r p']]. exact R1.
  - unfold VideoDownloader_stop.
    destruct (for_of_returns stop (workers d) q (fun w0 q0 _ => stop_returns _)) as [_ R2].
    destruct (for_of stop (workers d) q) as [c [r p']]. exact R2.
  - intros Hall. unfold fanout_isolated, VideoDownloader_start.
    assert (Hb : forall w0 q0, In w0 (workers d) -> fst (start (mkSt w0 q0)) = Normal tt).
    { intros w0 q0 Hin. rewrite Forall_forall in Hall.
      destruct (Hall w0) as [Hc Hs]; [apply list_elem_of_In; exact Hin|].
      apply start_returns; assumption. }
    destruct (for_of_returns start (workers d) q Hb) as [R1 R2].
    destruct (for_of start (workers d) q) as [c [r p']]. split; [exact R1|exact R2].
Qed.

(** ** Invariants along a sequence of events *)

Section Frames.

Variable R : St -> St -> Prop.
Hypothesis R_refl : forall s, R s s.
Hypothesis R_trans : forall s1 s2 s3, R s1 s2 -> R s2 s3 -> R s1 s3.
Hypothesis R_log : forall str args, preserves R (log str args).
Hypothesis R_newMediaRecorder : preserves R newMediaRecorder.
Hypothesis R_set_mediaRecorder : forall r, preserves R (modify_this (set_mediaRecorder r)).
Hypothesis R_onDataAvailable : forall data, preserves R (onDataAvailable data).
Hypothesis R_downloadVideo : preserves R downloadVideo.
Hypothesis R_set_video : forall v, preserves R (modify_this (set_video v)).

Lemma frames_on_mediaRecorder f : preserves R (on_mediaRecorder f).
Proof.
  unfold on_mediaRecorder.
  apply (preserves_bind R R_trans); [apply (preserves_get_this R R_refl)|intros w].
  destruct (mediaRecorder w); [|apply (preserves_throw R R_refl)].
  apply (preserves_bind R R_trans); [apply (preserves_lift R R_refl)|intros mr'].
  apply R_set_mediaRecorder.
Qed.

Lemma frames_call_and_log f str args :
  preserves R (bind (on_mediaRecorder f) (fun _ => log str args)).
Proof.
  apply (preserves_bind R R_trans); [apply frames_on_mediaRecorder|intros; apply R_log].
Qed.

Lemma frames_start : preserves R start.
Proof.
  unfold start.
  apply (preserves_bind R R_trans); [apply (preserves_get_this R R_refl)|intros w].
  repeat apply preserves_if.
  - apply (preserves_bind R R_trans); [apply R_newMediaRecorder|intros mr].
    apply (preserves_bind R R_trans); [apply R_set_mediaRecorder|intros _].
    apply (preserves_bind R R_trans); [apply (preserves_get_this R R_refl)|intros w'].
    apply preserves_if; [apply frames_call_and_log|apply R_log].
  - apply frames_call_and_log.
  - apply R_log.
Qed.

Lemma frames_stop : preserves R stop.
Proof.
  unfold stop.
  apply (preserves_bind R R_trans); [apply (preserves_get_this R R_refl)|intros w].
  apply preserves_if; [apply frames_call_and_log|apply (preserves_ret R R_refl)].
Qed.

Lemma frames_pause : preserves R pause.
Proof.
  unfold pause.
  apply (preserves_bind R R_trans); [apply (preserves_get_this R R_refl)|intros w].
  apply preserves_if; [apply frames_call_and_log|apply (preserves_ret R R_refl)].
Qed.

Lemma frames_dispatch e s : R s (dispatch e s).
Proof.
  unfold dispatch. destruct e; cbn [handle].
  - apply frames_start.
  - apply frames_stop.
  - apply frames_pause.
  - unfold onPlayingEvent.
    apply (preserves_bind R R_trans); [apply (preserves_get_this R R_refl)|intros w].
    apply (preserves_bind R R_trans); [|intros; apply R_log].
    apply preserves_if; [apply frames_start|apply (preserves_ret R R_refl)].
  - unfold onPauseEvent.
    apply (preserves_bind R R_trans); [apply frames_pause|intros; apply R_log].
  - unfold onStalledEvent.
    apply (preserves_bind R R_trans); [apply frames_pause|intros; apply R_log].
  - unfold onEndedEvent.
    apply (preserves_bind R R_trans); [apply frames_stop|intros; apply R_log].
  - apply R_onDataAvailable.
  - apply R_downloadVideo.
  - apply R_set_video.
  - apply (R_set_mediaRecorder
             (with_state RecordingState.inactive <$> mediaRecorder (this s)) s).
Qed.

Lemma frames_run evs s : R s (run evs s).
Proof.
  revert s. induction evs as [|e evs IH]; intros s.
  - apply R_refl.
  - rewrite run_cons. eapply R_trans; [apply frames_dispatch|apply IH].
Qed.

End Frames.

Lemma same_config_refl w : same_config w w.
Proof. unfold same_config. auto. Qed.

Lemma same_config_trans w1 w2 w3 :
  same_config w1 w2 -> same_config w2 w3 -> same_config w1 w3.
Proof. unfold same_config. intuition congruence. Qed.

Lemma constructs_nothing s s' :
  constructed (page s') = constructed (page s) -> constructs_from_config s s'.
Proof. intros H. exists []. rewrite app_nil_r. split; [exact H|constructor]. Qed.

Lemma downloads_nothing s s' :
  downloads (page s') = downloads (page s) -> downloads_from_config s s'.
Proof. intros H. exists []. rewrite app_nil_r. split; [exact H|constructor]. Qed.

Lemma console_grows_log lg str args c :
  match Logger.verbosity lg with
  | Logger.NONE => Logger.log lg str args c = c
  | _ => c `prefix_of` Logger.log lg str args c
  end.
Proof.
  unfold Logger.log. destruct (Logger.verbosity lg).
  - reflexivity.
  - apply prefix_app_r. reflexivity.
  - rewrite <- app_assoc. apply prefix_app_r. reflexivity.
Qed.

Lemma console_grows_same s s' :
  console (page s') = console (page s) -> console_grows s s'.
Proof.
  intros H. unfold console_grows. rewrite H.
  destruct (Logger.verbosity (logger (this s))); reflexivity.
Qed.

Lemma frame_refl s : frame s s.
Proof.
  unfold frame. split_and!.
  - apply same_config_refl.
  - apply console_grows_same. reflexivity.
  - auto.
  - apply constructs_nothing. reflexivity.
  - apply downloads_nothing. reflexivity.
Qed.

Lemma frame_trans s1 s2 s3 : frame s1 s2 -> frame s2 s3 -> frame s1 s3.
Proof.
  unfold frame. intros (C1 & L1 & U1 & (r1 & R1 & F1) & (d1 & D1 & G1))
                       (C2 & L2 & U2 & (r2 & R2 & F2) & (d2 & D2 & G2)).
  pose proof C1 as (Hlg & Hfps & Hfn & Hop & Hmt).
  split_and!.
  - eapply same_config_trans; eassumption.
  - unfold console_grows in *. rewrite Hlg in L2.
    destruct (Logger.verbosity (logger (this s1))).
    + congruence.
    + etrans; eassumption.
    + etrans; eassumption.
  - auto.
  - exists (r1 ++ r2). rewrite R2, R1, app_assoc. split; [reflexivity|].
    apply Forall_app. split; [exact F1|]. rewrite Hfps, Hop in F2. exact F2.
  - exists (d1 ++ d2). rewrite D2, D1, app_assoc. split; [reflexivity|].
    apply Forall_app. split; [exact G1|]. rewrite Hfn, Hmt in G2. exact G2.
Qed.

Lemma frame_log str args : preserves frame (log str args).
Proof.
  intros s. rewrite log_eq. unfold frame. cbn [snd]. split_and!.
  - apply same_config_refl.
  - unfold console_grows. cbn. apply console_grows_log.
  - auto.
  - apply constructs_nothing. reflexivity.
  - apply downloads_nothing. reflexivity.
Qed.

Lemma newMediaRecorder_eq (s : St) :
  newMediaRecorder s =
    if capturable (video (this s)) && isTypeSupported (opt_mimeType (options (this s)))
    then (Normal (mkRecorder (length (constructed (page s))) RecordingState.inactive
                    (mkStream (fps (this s))) (options (this s))),
          mkSt (this s)
               (set_constructed
                  (constructed (page s) ++ [(mkStream (fps (this s)), options (this s))])
                  (page s)))
    else (Throw NotSupportedError, s).
Proof.
  destruct s as [w p].
  unfold newMediaRecorder, captureStream, new_MediaRecorder, bind, get_this, get_page,
    modify_page, ret, throw. cbn [this page fst snd].
  destruct (capturable (video w)); [|reflexivity].
  destruct (isTypeSupported (opt_mimeType (options w))); reflexivity.
Qed.

Lemma frame_newMediaRecorder : preserves frame newMediaRecorder.
Proof.
  intros s. rewrite newMediaRecorder_eq.
  destruct (capturable (video (this s)) &&
            isTypeSupported (opt_mimeType (options (this s)))); [|apply frame_refl].
  unfold frame. cbn [snd]. split_and!.
  - apply same_config_refl.
  - apply console_grows_same. reflexivity.
  - auto.
  - eexists. split; [reflexivity|]. constructor; [reflexivity|constructor].
  - apply downloads_nothing. reflexivity.
Qed.

Lemma frame_set_mediaRecorder r : preserves frame (modify_this (set_mediaRecorder r)).
Proof.
  intros s. unfold frame. split_and!.
  - unfold same_config. cbn. auto.
  - apply console_grows_same. reflexivity.
  - unfold released. cbn. auto.
  - apply constructs_nothing. reflexivity.
  - apply downloads_nothing. reflexivity.
Qed.

Lemma frame_set_video v : preserves frame (modify_this (set_video v)).
Proof.
  intros s. unfold frame. split_and!.
  - unfold same_config. cbn. auto.
  - apply console_grows_same. reflexivity.
  - unfold released. cbn. auto.
  - apply constructs_nothing. reflexivity.
  - apply downloads_nothing. reflexivity.
Qed.

Lemma frame_onDataAvailable data : preserves frame (onDataAvailable data).
Proof.
  intros s. rewrite onDataAvailable_eq. unfold frame. cbn [snd]. split_and!.
  - unfold same_config. destruct (0 <? size data); cbn; auto.
  - unfold console_grows. cbn. apply console_grows_log.
  - unfold released. cbn. destruct (0 <? size data); auto.
  - apply constructs_nothing. reflexivity.
  - apply downloads_nothing. reflexivity.
Qed.

Lemma frame_downloadVideo : preserves frame downloadVideo.
Proof.
  intros s. rewrite downloadVideo_eq. unfold frame. cbn [snd]. split_and!.
  - unfold same_config. cbn. auto.
  - unfold console_grows. cbn. apply console_grows_log.
  - unfold released. cbn. intros [H _]. split; [|reflexivity].
    rewrite insert_app_r_alt by lia. rewrite Nat.sub_diag. cbn.
    apply Forall_app. split; [exact H|]. constructor; [reflexivity|constructor].
  - apply constructs_nothing. reflexivity.
  - eexists. split; [reflexivity|]. constructor; [|constructor]. cbn. auto.
Qed.

Lemma run_frame evs s : frame s (run evs s).
Proof.
  apply (frames_run frame frame_refl frame_trans frame_log frame_newMediaRecorder
           frame_set_mediaRecorder frame_onDataAvailable frame_downloadVideo
           frame_set_video).
Qed.

(** ** Further properties of the worker *)

Lemma phase_Paused w :
  phase w = Paused ->
  exists mr, mediaRecorder w = Some mr /\ state mr = RecordingState.paused.
Proof.
  unfold phase. destruct (mediaRecorder w) as [mr|]; [|discriminate].
  destruct (state mr) eqn:E; try discriminate. eauto.
Qed.

(** [start()] of a Paused worker resumes the recorder it holds. *)
Lemma start_Paused_eq (s : St) (mr : MediaRecorder) :
  mediaRecorder (this s) = Some mr ->
  state mr = RecordingState.paused ->
  start s =
    (Normal tt,
     mkSt (set_mediaRecorder (Some (with_state RecordingState.recording mr)) (this s))
          (set_console (Logger.log (logger (this s)) "resuming paused recording" []
                                   (console (page s))) (page s))).
Proof.
  destruct s as [w p]. simpl. intros Hmr Hst.
  unfold start, bind, get_this. cbn [this fst snd]. rewrite start_guard.
  unfold phase, state_is. rewrite Hmr, Hst. cbn [RecordingState.eqb].
  unfold on_mediaRecorder, log, bind, get_this, lift, modify_this, modify_page,
    MediaRecorder_resume. cbn [this page fst snd]. rewrite Hmr, Hst. reflexivity.
Qed.

(** [pause()] of a Recording worker suspends the recorder it holds. *)
Lemma pause_Recording_eq (s : St) (mr : MediaRecorder) :
  mediaRecorder (this s) = Some mr ->
  state mr = RecordingState.recording ->
  pause s =
    (Normal tt,
     mkSt (set_mediaRecorder (Some (with_state RecordingState.paused mr)) (this s))
          (set_console (Logger.log (logger (this s)) "pause media recording" []
                                   (console (page s))) (page s))).
Proof.
  destruct s as [w p]. simpl. intros Hmr Hst.
  unfold pause, bind, get_this. cbn [this fst snd]. rewrite pause_guard.
  unfold phase. rewrite Hmr, Hst.
  unfold on_mediaRecorder, log, bind, get_this, lift, modify_this, modify_page,
    MediaRecorder_pause. cbn [this page fst snd]. rewrite Hmr, Hst. reflexivity.
Qed.

Lemma pause_returns (s : St) : fst (pause s) = Normal tt.
Proof.
  destruct (phase (this s)) eqn:Hph;
    try (rewrite pause_inert_eq by congruence; reflexivity).
  destruct (phase_Recording _ Hph) as (mr & Hmr & Hst).
  rewrite (pause_Recording_eq s mr Hmr Hst). reflexivity.
Qed.

(** X1. [pause()] acts on a Recording worker only: it suspends the recorder
    the worker holds and makes the worker Paused.  In every other state it
    changes nothing at all.  It never throws, never constructs a recorder,
    never touches the buffer or the downloads, and a second [pause()] in a
    row has no further effect. *)
Theorem pause_only_while_Recording (s : St) :
  fst (pause s) = Normal tt /\
  phase (this (dispatch CallPause s)) =
    match phase (this s) with Recording => Paused | ph => ph end /\
  (dispatch CallPause s = s \/ phase (this s) = Recording) /\
  rec_id <$> mediaRecorder (this (dispatch CallPause s)) =
    rec_id <$> mediaRecorder (this s) /\
  recordedChunks (this (dispatch CallPause s)) = recordedChunks (this s) /\
  constructed (page (dispatch CallPause s)) = constructed (page s) /\
  downloads (page (dispatch CallPause s)) = downloads (page s) /\
  dispatch CallPause (dispatch CallPause s) = dispatch CallPause s.
Proof.
  split; [apply pause_returns|].
  unfold dispatch. cbn [handle].
  destruct (phase (this s)) eqn:Hph;
    try (rewrite !pause_inert_eq by (cbn [snd]; congruence); cbn [snd];
         rewrite Hph; split_and!; auto).
  destruct (phase_Recording _ Hph) as (mr & Hmr & Hst).
  rewrite (pause_Recording_eq s mr Hmr Hst). cbn [snd].
  rewrite pause_inert_eq by (unfold phase; cbn; discriminate).
  cbn. rewrite Hmr. split_and!; auto.
Qed.

(** X2. [start()] of a Paused worker resumes the recorder the worker holds:
    the worker is Recording again on the same recorder, whatever the video's
    [playing] getter says and whether or not the video could still be
    captured; no recorder is constructed, buffer and downloads are kept. *)
Theorem start_resumes_Paused (s : St) :
  phase (this s) = Paused ->
  fst (start s) = Normal tt /\
  phase (this (dispatch CallStart s)) = Recording /\
  rec_id <$> mediaRecorder (this (dispatch CallStart s)) =
    rec_id <$> mediaRecorder (this s) /\
  recordedChunks (this (dispatch CallStart s)) = recordedChunks (this s) /\
  constructed (page (dispatch CallStart s)) = constructed (page s) /\
  downloads (page (dispatch CallStart s)) = downloads (page s) /\
  console (page (dispatch CallStart s)) =
    Logger.log (logger (this s)) "resuming paused recording" [] (console (page s)).
Proof.
  intros Hph. destruct (phase_Paused _ Hph) as (mr & Hmr & Hst).
  unfold dispatch. cbn [handle]. rewrite (start_Paused_eq s mr Hmr Hst).
  cbn. rewrite Hmr. split_and!; reflexivity.
Qed.

(** What a stall (or a pause of the video) followed by "playing" does to a
    Recording worker: the worker object is back as it was. *)
Lemma suspend_resume_eq (s : St) (e : Event) :
  e = VideoStalled \/ e = VideoPause ->
  phase (this s) = Recording ->
  phase (this (dispatch e s)) = Paused /\
  this (run [e; VideoPlaying] s) = this s /\
  constructed (page (run [e; VideoPlaying] s)) = constructed (page s) /\
  downloads (page (run [e; VideoPlaying] s)) = downloads (page s).
Proof.
  intros He Hph. destruct (phase_Recording _ Hph) as (mr & Hmr & Hst).
  assert (E1 : dispatch e s =
            mkSt (set_mediaRecorder (Some (with_state RecordingState.paused mr)) (this s))
                 (page (dispatch e s)) /\
          constructed (page (dispatch e s)) = constructed (page s) /\
          downloads (page (dispatch e s)) = downloads (page s)).
  { destruct He as [-> | ->]; unfold dispatch; cbn [handle];
      unfold onStalledEvent, onPauseEvent, bind;
      rewrite (pause_Recording_eq s mr Hmr Hst); rewrite log_eq; cbn; auto. }
  destruct E1 as (E1 & C1 & D1).
  split; [rewrite E1; reflexivity|].
  cbn [run fold_left]. set (s1 := dispatch e s) in *.
  assert (Hmr1 : mediaRecorder (this s1) = Some (with_state RecordingState.paused mr))
    by (rewrite E1; reflexivity).
  clearbody s1. unfold dispatch. cbn [handle]. unfold onPlayingEvent, bind, get_this.
  cbn [fst snd]. rewrite Hmr1. cbn [truthy].
  rewrite (start_Paused_eq s1 _ Hmr1 eq_refl). rewrite log_eq. cbn [snd this page].
  split_and!.
  - rewrite E1. cbn [this]. clear E1 Hmr1 C1 D1 Hph.
    destruct (this s) as [lg fp fn op mt vd mr0 ch an]. destruct mr as [i st str o].
    cbn in *. subst. reflexivity.
  - cbn. exact C1.
  - cbn. exact D1.
Qed.

(** X3. A Recording worker whose video stalls (or is paused) becomes Paused,
    and the next "playing" event resumes it: after the two events the worker
    object is exactly what it was, on the same recorder, and no recorder has
    been constructed and nothing downloaded in between. *)
Theorem stall_then_playing_round_trip (s : St) :
  phase (this s) = Recording ->
  phase (this (dispatch VideoStalled s)) = Paused /\
  phase (this (dispatch VideoPause s)) = Paused /\
  this (run [VideoStalled; VideoPlaying] s) = this s /\
  this (run [VideoPause; VideoPlaying] s) = this s /\
  constructed (page (run [VideoStalled; VideoPlaying] s)) = constructed (page s) /\
  downloads (page (run [VideoStalled; VideoPlaying] s)) = downloads (page s).
Proof.
  intros Hph.
  destruct (suspend_resume_eq s VideoStalled (or_introl eq_refl) Hph) as (A1 & A2 & A3 & A4).
  destruct (suspend_resume_eq s VideoPause (or_intror eq_refl) Hph) as (B1 & B2 & _ & _).
  split_and!; assumption.
Qed.

Lemma onEndedEvent_eq (s : St) :
  onEndedEvent "ended" s = log "video ended" ["ended"] (dispatch CallStop s).
Proof.
  unfold onEndedEvent, bind, dispatch. cbn [handle].
  pose proof (stop_returns s) as H. destruct (stop s) as [[[]|e] s']; [reflexivity|].
  discriminate.
Qed.

Lemma onStalledEvent_eq (s : St) :
  onStalledEvent "stalled" s = log "video is stalled" ["stalled"] (dispatch CallPause s).
Proof.
  unfold onStalledEvent, bind, dispatch. cbn [handle].
  pose proof (pause_returns s) as H. destruct (pause s) as [[[]|e] s']; [reflexivity|].
  discriminate.
Qed.

Lemma onPauseEvent_eq (s : St) :
  onPauseEvent "pause" s = log "video is paused" ["pause"] (dispatch CallPause s).
Proof.
  unfold onPauseEvent, bind, dispatch. cbn [handle].
  pose proof (pause_returns s) as H. destruct (pause s) as [[[]|e] s']; [reflexivity|].
  discriminate.
Qed.

(** What [start()] does to the worker object, state by state. *)
Lemma start_phase_cases (s : St) :
  match phase (this s) with
  | Idle | Armed =>
      if capturable (video (this s)) &&
         isTypeSupported (opt_mimeType (options (this s)))
      then fst (start s) = Normal tt /\
           phase (this (snd (start s))) =
             (if playing (video (this s)) then Recording else Armed)
      else start s = (Throw NotSupportedError, s)
  | Recording | Paused =>
      fst (start s) = Normal tt /\ phase (this (snd (start s))) = Recording
  end.
Proof.
  destruct (phase (this s)) eqn:Hph.
  - destruct (capturable (video (this s))) eqn:Hc;
      [destruct (isTypeSupported (opt_mimeType (options (this s)))) eqn:Hs|]; cbn [andb].
    + rewrite start_fresh_eq by auto. cbn. unfold phase. cbn.
      destruct (playing (video (this s))); auto.
    + apply start_fails_eq; auto.
    + apply start_fails_eq; auto.
  - destruct (capturable (video (this s))) eqn:Hc;
      [destruct (isTypeSupported (opt_mimeType (options (this s)))) eqn:Hs|]; cbn [andb].
    + rewrite start_fresh_eq by auto. cbn. unfold phase. cbn.
      destruct (playing (video (this s))); auto.
    + apply start_fails_eq; auto.
    + apply start_fails_eq; auto.
  - rewrite start_Recording_eq by exact Hph. cbn. auto.
  - destruct (phase_Paused _ Hph) as (mr & Hmr & Hst).
    rewrite (start_Paused_eq s mr Hmr Hst). cbn. auto.
Qed.

(** X4. [start()] throws in one situation only: the worker is Idle or Armed
    and the recorder cannot be constructed (the video cannot be captured, or
    the recorder rejects the options).  The exception is the constructor's
    and [start()] has then changed nothing; a Recording or Paused worker can
    always be started. *)
Theorem start_throws_exactly_when (s : St) :
  fst (start s) =
    match phase (this s) with
    | Idle | Armed =>
        if capturable (video (this s)) &&
           isTypeSupported (opt_mimeType (options (this s)))
        then Normal tt else Throw NotSupportedError
    | Recording | Paused => Normal tt
    end /\
  (fst (start s) = Normal tt \/ snd (start s) = s).
Proof.
  pose proof (start_phase_cases s) as H.
  destruct (phase (this s));
    try (destruct (capturable (video (this s)) &&
                   isTypeSupported (opt_mimeType (options (this s))));
         [destruct H as [-> _]; auto|rewrite H; auto]);
    destruct H as [-> _]; auto.
Qed.

(** X5. The "playing" handler lets an exception escape in one situation
    only: the worker is Armed and the recorder cannot be constructed again.
    The handler has then changed nothing and its log line is not written.
    In every other case it returns, and what it leaves is a worker that is
    Idle if it was Idle, Recording if it was Recording or Paused, and
    Recording or Armed, as the [playing] getter says, if it was Armed. *)
Theorem playing_handler_outcome (s : St) :
  let ok := capturable (video (this s)) &&
            isTypeSupported (opt_mimeType (options (this s))) in
  match phase (this s) with
  | Armed =>
      if ok
      then fst (onPlayingEvent "playing" s) = Normal tt /\
           phase (this (dispatch VideoPlaying s)) =
             (if playing (video (this s)) then Recording else Armed)
      else onPlayingEvent "playing" s = (Throw NotSupportedError, s)
  | Idle =>
      fst (onPlayingEvent "playing" s) = Normal tt /\
      phase (this (dispatch VideoPlaying s)) = Idle
  | Recording | Paused =>
      fst (onPlayingEvent "playing" s) = Normal tt /\
      phase (this (dispatch VideoPlaying s)) = Recording
  end.
Proof.
  cbv zeta. pose proof (start_phase_cases s) as H. unfold dispatch. cbn [handle].
  destruct (phase (this s)) eqn:Hph.
  - rewrite onPlayingEvent_Idle_eq by exact Hph. cbn. auto.
  - destruct (phase_Armed _ Hph) as (mr & Hmr & _).
    unfold onPlayingEvent, bind, get_this. cbn [fst snd]. rewrite Hmr. cbn [truthy].
    destruct (capturable (video (this s)) &&
              isTypeSupported (opt_mimeType (options (this s)))).
    + destruct H as [H1 H2]. destruct (start s) as [[[]|e] s']; [|discriminate].
      rewrite log_eq. cbn in *. auto.
    + rewrite H. reflexivity.
  - destruct (phase_Recording _ Hph) as (mr & Hmr & _).
    unfold onPlayingEvent, bind, get_this. cbn [fst snd]. rewrite Hmr. cbn [truthy].
    destruct H as [H1 H2]. destruct (start s) as [[[]|e] s']; [|discriminate].
    rewrite log_eq. cbn in *. auto.
  - destruct (phase_Paused _ Hph) as (mr & Hmr & _).
    unfold onPlayingEvent, bind, get_this. cbn [fst snd]. rewrite Hmr. cbn [truthy].
    destruct H as [H1 H2]. destruct (start s) as [[[]|e] s']; [|discriminate].
    rewrite log_eq. cbn in *. auto.
Qed.

(** X6. No handler other than [start()] and the "playing" handler ever
    throws: [stop()], [pause()], the three other video handlers, the chunk
    handler and the recorder's stop handler always return. *)
Theorem other_handlers_return (e : Event) (s : St) :
  e <> CallStart ->
  e <> VideoPlaying ->
  fst (handle e s) = Normal tt.
Proof.
  intros H1 H2. destruct e; cbn [handle]; try congruence.
  - apply stop_returns.
  - apply pause_returns.
  - rewrite onPauseEvent_eq. reflexivity.
  - rewrite onStalledEvent_eq. reflexivity.
  - rewrite onEndedEvent_eq. reflexivity.
  - rewrite onDataAvailable_eq. reflexivity.
  - rewrite downloadVideo_eq. reflexivity.
  - reflexivity.
  - reflexivity.
Qed.

(** X7. [stop()] never throws and is idempotent.  It inactivates the
    recorder of a Recording or Paused worker and drops nothing: the worker
    holds the same recorder afterwards, reads as Armed until the recorder's
    stop event arrives, and buffer, recorders and downloads are as before.
    On an Idle or Armed worker it does nothing at all. *)
Theorem stop_is_idempotent (s : St) :
  fst (stop s) = Normal tt /\
  dispatch CallStop (dispatch CallStop s) = dispatch CallStop s /\
  phase (this (dispatch CallStop s)) =
    match phase (this s) with Idle => Idle | _ => Armed end /\
  (dispatch CallStop s = s \/ phase (this s) = Recording \/ phase (this s) = Paused) /\
  rec_id <$> mediaRecorder (this (dispatch CallStop s)) =
    rec_id <$> mediaRecorder (this s) /\
  recordedChunks (this (dispatch CallStop s)) = recordedChunks (this s) /\
  constructed (page (dispatch CallStop s)) = constructed (page s) /\
  downloads (page (dispatch CallStop s)) = downloads (page s).
Proof.
  split; [apply stop_returns|].
  unfold dispatch. cbn [handle].
  destruct (phase (this s)) eqn:Hph.
  - rewrite (stop_inert_eq s) by auto. cbn [snd]. rewrite (stop_inert_eq s) by auto.
    cbn [snd]. rewrite Hph. split_and!; auto.
  - rewrite (stop_inert_eq s) by auto. cbn [snd]. rewrite (stop_inert_eq s) by auto.
    cbn [snd]. rewrite Hph. split_and!; auto.
  - destruct (phase_Recording _ Hph) as (mr & Hmr & Hst).
    rewrite (stop_active_eq s mr Hmr) by congruence. cbn [snd].
    rewrite stop_inert_eq by (right; unfold phase; cbn; reflexivity).
    cbn. rewrite Hmr. split_and!; auto.
  - destruct (phase_Paused _ Hph) as (mr & Hmr & Hst).
    rewrite (stop_active_eq s mr Hmr) by congruence. cbn [snd].
    rewrite stop_inert_eq by (right; unfold phase; cbn; reflexivity).
    cbn. rewrite Hmr. split_and!; auto.
Qed.

(** X8. The configuration of a worker is fixed at construction: no call and
    no event, in any order, changes its logger, frame rate, file name,
    recorder options or container format. *)
Theorem configuration_is_immutable (s : St) (evs : list Event) :
  logger (this (run evs s)) = logger (this s) /\
  fps (this (run evs s)) = fps (this s) /\
  filename (this (run evs s)) = filename (this s) /\
  options (this (run evs s)) = options (this s) /\
  mimeType (this (run evs s)) = mimeType (this s).
Proof. destruct (run_frame evs s) as (H & _). exact H. Qed.

Lemma run_downloads_count evs s :
  length (downloads (page (run evs s))) =
    (length (downloads (page s)) + stop_events evs)%nat.
Proof.
  revert s. induction evs as [|e evs IH]; intros s.
  - simpl. lia.
  - rewrite run_cons, IH.
    destruct e;
      try (match goal with
           | |- context [dispatch ?e s] =>
               assert (e <> RecorderStop) as He by discriminate;
               pose proof (dispatch_same_downloads e s He) as H;
               unfold same_downloads in H; rewrite H; reflexivity
           end).
    unfold dispatch. cbn [handle]. rewrite downloadVideo_eq. cbn.
    rewrite length_app. simpl. lia.
Qed.

(** X9. A file is downloaded once per recorder stop event and at no other
    moment: along any sequence of calls and events the number of downloads
    grows by the number of stop events in it.  Earlier downloads are kept,
    and every file added carries the worker's file name and is tagged with
    the worker's container format. *)
Theorem one_download_per_stop_event (s : St) (evs : list Event) :
  length (downloads (page (run evs s))) =
    (length (downloads (page s)) + stop_events evs)%nat /\
  exists added,
    downloads (page (run evs s)) = downloads (page s) ++ added /\
    length added = stop_events evs /\
    Forall (fun d => fst d = filename (this s) /\ blob_type (snd d) = mimeType (this s))
           added.
Proof.
  pose proof (run_downloads_count evs s) as Hn.
  destruct (run_frame evs s) as (_ & _ & _ & _ & (added & Hd & Hf)).
  split; [exact Hn|]. exists added. split_and!; [exact Hd| |exact Hf].
  rewrite Hd, length_app in Hn. lia.
Qed.

(** X10. Every recorder a worker constructs, at any moment, is constructed
    on a stream captured at the worker's frame rate and with the worker's
    recorder options; recorders constructed earlier stay on record.  For a
    worker constructed with an options argument these are that argument and
    the frame rate 0. *)
Theorem recorders_use_the_options (s : St) (evs : list Event)
    (video0 : HTMLVideoElement) (filename0 mimeType0 : option string)
    (options0 : Options) :
  (exists added,
     constructed (page (run evs s)) = constructed (page s) ++ added /\
     Forall (fun c => c = (mkStream (fps (this s)), options (this s))) added) /\
  Forall (fun c => c = (mkStream 0, options0))
    (constructed (page (run evs
       (mkSt (new_VideoDownloadWorker video0 filename0 mimeType0 (Some options0))
             blank_page)))).
Proof.
  split.
  - destruct (run_frame evs s) as (_ & _ & _ & H & _). exact H.
  - match goal with |- context [run evs ?s0] =>
      destruct (run_frame evs s0) as (_ & _ & _ & (added & Hc & Hf) & _) end.
    rewrite Hc. exact Hf.
Qed.

(** X11. A download leaves nothing behind: when no blob URL is registered
    and the anchor is out of the page, this is so again after any sequence
    of calls and events.  Each blob URL created for a download is revoked
    and the anchor is removed before the handler ends. *)
Theorem downloads_leave_nothing_behind (s : St) (evs : list Event) :
  released s -> released (run evs s).
Proof. destruct (run_frame evs s) as (_ & _ & H & _). exact H. Qed.

(** X12. The console is only ever extended: whatever was logged stays, in
    any sequence of calls and events; and a worker whose logger has verbosity
    [NONE] writes nothing at all. *)
Theorem console_only_grows (s : St) (evs : list Event) :
  match Logger.verbosity (logger (this s)) with
  | Logger.NONE => console (page (run evs s)) = console (page s)
  | _ => console (page s) `prefix_of` console (page (run evs s))
  end.
Proof. destruct (run_frame evs s) as (_ & H & _). exact H. Qed.

Lemma run_chunks_Recording (cs : list Blob) (s : St) :
  Forall (fun c => 0 < size c) cs ->
  phase (this s) = Recording ->
  phase (this (run (map DataAvailable cs) s)) = Recording.
Proof.
  intros Hne Hph. destruct (run_chunks cs s Hne) as [-> _]. exact Hph.
Qed.

(** X13. A recording that is interrupted by a stall gives one file.  For a
    Recording worker: chunks, then "stalled", "playing", more chunks, the
    video's "ended" event and the recorder's stop event download exactly one
    artifact, made of what was buffered followed by the chunks of both
    intervals in arrival order.  Nothing is downloaded at the stall or at
    "ended"; the worker ends Idle with an empty buffer. *)
Theorem one_file_across_a_stall (s : St) (cs1 cs2 : list Blob) :
  phase (this s) = Recording ->
  Forall (fun c => 0 < size c) cs1 ->
  Forall (fun c => 0 < size c) cs2 ->
  let before := run (map DataAvailable cs1 ++ [VideoStalled; VideoPlaying] ++
                     map DataAvailable cs2 ++ [VideoEnded]) s in
  let after := dispatch RecorderStop before in
  downloads (page before) = downloads (page s) /\
  downloads (page after) =
    downloads (page s) ++
    [(filename (this s),
      new_Blob (recordedChunks (this s) ++ cs1 ++ cs2) (mimeType (this s)))] /\
  recordedChunks (this after) = [] /\
  phase (this after) = Idle.
Proof.
  intros Hph H1 H2 before after.
  set (s1 := run (map DataAvailable cs1) s).
  set (s2 := run [VideoStalled; VideoPlaying] s1).
  set (s3 := run (map DataAvailable cs2) s2).
  assert (Hb : before = dispatch VideoEnded s3).
  { unfold before. rewrite !run_app. reflexivity. }
  destruct (run_chunks cs1 s H1) as [T1 D1]. fold s1 in T1, D1.
  assert (P1 : phase (this s1) = Recording) by (apply run_chunks_Recording; assumption).
  destruct (suspend_resume_eq s1 VideoStalled (or_introl eq_refl) P1)
    as (_ & T2 & _ & D2). fold s2 in T2, D2.
  destruct (run_chunks cs2 s2 H2) as [T3 D3]. fold s3 in T3, D3.
  rewrite T2, T1 in T3. cbn [recordedChunks set_recordedChunks] in T3.
  rewrite <- app_assoc in T3.
  destruct (phase_Recording _ Hph) as (mr & Hmr & Hst).
  assert (Hmr3 : mediaRecorder (this s3) = Some mr) by (rewrite T3; exact Hmr).
  assert (T4 : this before =
                 set_mediaRecorder (Some (with_state RecordingState.inactive mr)) (this s3)
               /\ downloads (page before) = downloads (page s3)).
  { rewrite Hb. unfold dispatch. cbn [handle]. unfold onEndedEvent, bind.
    rewrite (stop_active_eq s3 mr Hmr3) by congruence. rewrite log_eq. cbn. auto. }
  destruct T4 as [T4 D4].
  assert (D : downloads (page before) = downloads (page s)) by congruence.
  pose proof (downloadVideo_eq before) as E. cbv zeta in E.
  unfold after, dispatch. cbn [handle]. rewrite E. cbn [snd this page downloads
    recordedChunks]. rewrite D, T4, T3. cbn. split_and!; reflexivity.
Qed.

(** X14. The recorder's stop handler drops whatever recorder the worker
    holds.  When a Recording worker is stopped and started again before the
    stop event of the first recorder has arrived, a second recorder is
    constructed and started; the stop event of the first one then leaves the
    worker Idle, holding no recorder, and a later [stop()] does nothing. *)
Theorem stop_event_drops_restarted_recorder (s : St) :
  phase (this s) = Recording ->
  playing (video (this s)) = true ->
  capturable (video (this s)) = true ->
  isTypeSupported (opt_mimeType (options (this s))) = true ->
  let restarted := run [CallStop; CallStart] s in
  let flushed := dispatch RecorderStop restarted in
  phase (this restarted) = Recording /\
  rec_id <$> mediaRecorder (this restarted) = Some (length (constructed (page s))) /\
  constructed (page restarted) =
    constructed (page s) ++ [(mkStream (fps (this s)), options (this s))] /\
  mediaRecorder (this flushed) = None /\
  phase (this flushed) = Idle /\
  dispatch CallStop flushed = flushed.
Proof.
  intros Hph Hplay Hcap Hsup restarted flushed.
  destruct (phase_Recording _ Hph) as (mr & Hmr & Hst).
  set (s1 := dispatch CallStop s).
  assert (E1 : s1 = mkSt (set_mediaRecorder
                            (Some (with_state RecordingState.inactive mr)) (this s))
                         (set_console (Logger.log (logger (this s))
                            "stop active or paused media recording" []
                            (console (page s))) (page s))).
  { unfold s1, dispatch. cbn [handle].
    rewrite (stop_active_eq s mr Hmr) by congruence. reflexivity. }
  assert (E2 : restarted = snd (start s1)) by reflexivity.
  clearbody restarted.
  rewrite (start_fresh_eq s1) in E2;
    [|right; rewrite E1; reflexivity|rewrite E1; exact Hcap|rewrite E1; exact Hsup].
  cbn [snd] in E2. rewrite E1 in E2. cbn in E2. rewrite Hplay in E2.
  assert (E3 : flushed = snd (downloadVideo restarted)) by reflexivity.
  clearbody flushed.
  rewrite downloadVideo_eq in E3. cbn [snd] in E3.
  split_and!.
  - rewrite E2. reflexivity.
  - rewrite E2. reflexivity.
  - rewrite E2. reflexivity.
  - rewrite E3. reflexivity.
  - rewrite E3. reflexivity.
  - unfold dispatch. cbn [handle]. rewrite stop_inert_eq; [reflexivity|].
    left. rewrite E3. reflexivity.
Qed.

(** ** Further properties of the orchestrator *)

Lemma fold_left_push {A B} (f : A -> B) (l : list A) (acc : list B) :
  fold_left (fun (ws : list B) v => ws ++ [f v]) l acc = acc ++ map f l.
Proof.
  revert acc. induction l as [|x l IH]; intros acc; simpl.
  - rewrite app_nil_r. reflexivity.
  - rewrite IH, <- app_assoc. reflexivity.
Qed.

(** X15. The registry follows the page: the constructor makes one worker per
    video, in document order, each with the default configuration, Idle and
    with an empty buffer; a page without videos gives an empty registry. *)
Theorem registry_follows_videos (videos : list HTMLVideoElement) :
  workers (new_VideoDownloader videos) =
    map (fun v => new_VideoDownloadWorker v None None None) videos /\
  length (workers (new_VideoDownloader videos)) = length videos /\
  map video (workers (new_VideoDownloader videos)) = videos /\
  Forall (fun w => phase w = Idle /\ recordedChunks w = [] /\
                   filename w = "cast.webm" /\ mimeType w = "video/webm" /\
                   options w = mkOptions "video/webm; codecs=vp9" /\ fps w = 0)
         (workers (new_VideoDownloader videos)).
Proof.
  assert (E : workers (new_VideoDownloader videos) =
              map (fun v => new_VideoDownloadWorker v None None None) videos).
  { unfold new_VideoDownloader. cbn [workers]. rewrite fold_left_push. reflexivity. }
  rewrite E. split_and!.
  - reflexivity.
  - apply length_map.
  - rewrite map_map. cbn. apply map_id.
  - apply Forall_map. apply Forall_forall. intros v _. cbn. auto 10.
Qed.

(** What the loop over the registry keeps: a relation that every call of the
    body keeps on the worker it is called on and on the page holds between
    the registry and page before and after, also when the loop is left by an
    exception. *)
Lemma for_of_keeps (body : M unit)
    (Q : VideoDownloadWorker -> VideoDownloadWorker -> Prop) (P : Page -> Page -> Prop) :
  (forall w, Q w w) ->
  (forall p, P p p) ->
  (forall p1 p2 p3, P p1 p2 -> P p2 p3 -> P p1 p3) ->
  (forall w p, Q w (this (snd (body (mkSt w p)))) /\ P p (page (snd (body (mkSt w p))))) ->
  forall ws p,
    Forall2 Q ws (fst (snd (for_of body ws p))) /\ P p (snd (snd (for_of body ws p))).
Proof.
  intros Qr Pr Pt Hb ws. induction ws as [|w ws IH]; intros p.
  - simpl. split; [constructor|apply Pr].
  - cbn [for_of]. destruct (Hb w p) as [Hq Hp].
    destruct (body (mkSt w p)) as [[[]|e] s]; cbn [snd] in *.
    + destruct (IH (page s)) as [IH1 IH2].
      destruct (for_of body ws (page s)) as [c [ws' p']]. cbn in *.
      split; [constructor; assumption|eapply Pt; eassumption].
    + cbn. split; [|exact Hp]. constructor; [exact Hq|].
      clear -Qr. induction ws; constructor; auto.
Qed.

Lemma start_keeps_source (w : VideoDownloadWorker) (p : Page) :
  same_source w (this (snd (start (mkSt w p)))) /\
  downloads (page (snd (start (mkSt w p)))) = downloads p.
Proof.
  split.
  - apply (frames_start (fun s s' => same_source (this s) (this s'))).
    + intros s. unfold same_source. auto using same_config_refl.
    + unfold same_source. intros s1 s2 s3 (C1 & V1 & B1) (C2 & V2 & B2).
      split_and!; [eapply same_config_trans; eassumption|congruence|congruence].
    + intros str args s. rewrite log_eq. unfold same_source.
      auto using same_config_refl.
    + intros s. rewrite newMediaRecorder_eq. unfold same_source.
      destruct (_ && _); auto using same_config_refl.
    + intros r s. unfold same_source, same_config. cbn. auto 10.
  - apply (preserves_start same_downloads same_downloads_refl same_downloads_trans
             same_downloads_modify_page (fun r => same_downloads_modify_this _)).
Qed.

Lemma stop_keeps_source (w : VideoDownloadWorker) (p : Page) :
  same_source w (this (snd (stop (mkSt w p)))) /\
  downloads (page (snd (stop (mkSt w p)))) = downloads p.
Proof.
  split.
  - apply (frames_stop (fun s s' => same_source (this s) (this s'))).
    + intros s. unfold same_source. auto using same_config_refl.
    + unfold same_source. intros s1 s2 s3 (C1 & V1 & B1) (C2 & V2 & B2).
      split_and!; [eapply same_config_trans; eassumption|congruence|congruence].
    + intros str args s. rewrite log_eq. unfold same_source.
      auto using same_config_refl.
    + intros r s. unfold same_source, same_config. cbn. auto 10.
  - apply (preserves_stop same_downloads same_downloads_refl same_downloads_trans
             same_downloads_modify_page (fun r => same_downloads_modify_this _)).
Qed.

(** X16. [startAll()] and [stopAll()] keep the registry: whether they return
    or are left by an exception, the registry has the same workers in the
    same order, each with its video, configuration and buffer untouched, and
    nothing has been downloaded by the calls themselves. *)
Theorem fanout_keeps_registry (d : VideoDownloader) (p : Page) :
  (Forall2 same_source (workers d) (workers (fst (snd (VideoDownloader_start d p)))) /\
   length (workers (fst (snd (VideoDownloader_start d p)))) = length (workers d) /\
   downloads (snd (snd (VideoDownloader_start d p))) = downloads p) /\
  (Forall2 same_source (workers d) (workers (fst (snd (VideoDownloader_stop d p)))) /\
   length (workers (fst (snd (VideoDownloader_stop d p)))) = length (workers d) /\
   downloads (snd (snd (VideoDownloader_stop d p))) = downloads p).
Proof.
  assert (Qr : forall w, same_source w w)
    by (intros w; unfold same_source; auto using same_config_refl).
  pose proof (for_of_keeps start same_source (fun p p' => downloads p' = downloads p)
                Qr (fun _ => eq_refl) (fun p1 p2 p3 H1 H2 => eq_trans H2 H1)
                start_keeps_source (workers d) p) as [S1 S2].
  pose proof (for_of_keeps stop same_source (fun p p' => downloads p' = downloads p)
                Qr (fun _ => eq_refl) (fun p1 p2 p3 H1 H2 => eq_trans H2 H1)
                stop_keeps_source (workers d) p) as [T1 T2].
  unfold VideoDownloader_start, VideoDownloader_stop.
  destruct (for_of start (workers d) p) as [c1 [ws1 p1]].
  destruct (for_of stop (workers d) p) as [c2 [ws2 p2]]. cbn in *.
  split_and!; auto.
  - symmetry. eapply Forall2_length. exact S1.
  - symmetry. eapply Forall2_length. exact T1.
Qed.

(** ** Further properties of a session *)

(** X17. Whether [start()] records at once is decided by the [playing]
    getter alone: for an Idle worker whose recorder can be constructed,
    [start()] leaves it Recording exactly when the video has advanced past
    time 0, is neither paused nor ended and has a ready state above 2, and
    leaves it Armed otherwise.  A recorder is constructed in both cases. *)
Theorem start_records_iff_video_advances (s : St) :
  phase (this s) = Idle ->
  capturable (video (this s)) = true ->
  isTypeSupported (opt_mimeType (options (this s))) = true ->
  (phase (this (dispatch CallStart s)) = Recording <->
   (0 < currentTime (video (this s)))%Q /\ paused (video (this s)) = false /\
   ended (video (this s)) = false /\ 2 < readyState (video (this s))) /\
  (phase (this (dispatch CallStart s)) = Recording \/
   phase (this (dispatch CallStart s)) = Armed) /\
  length (constructed (page (dispatch CallStart s))) =
    S (length (constructed (page s))).
Proof.
  intros Hph Hcap Hsup. unfold dispatch. cbn [handle].
  rewrite start_fresh_eq by auto. cbn. rewrite <- playing_spec.
  unfold phase. cbn. rewrite length_app. cbn.
  destruct (playing (video (this s))); split_and!.
  - split; reflexivity.
  - left. reflexivity.
  - lia.
  - split; discriminate.
  - right. reflexivity.
  - lia.
Qed.

Lemma size_new_Blob (parts : list Blob) (type : string) :
  size (new_Blob parts type) = fold_right (fun c n => size c + n) 0 parts.
Proof.
  unfold size, new_Blob. cbn. induction parts as [|c parts IH]; cbn.
  - reflexivity.
  - rewrite length_app, Nat2Z.inj_add, IH. reflexivity.
Qed.

(** X18. The recorder's stop handler downloads whatever the buffer holds,
    also when that is nothing: the artifact has as many bytes as the
    buffered chunks together, and on an empty buffer a file of zero bytes is
    downloaded all the same. *)
Theorem stop_event_downloads_the_buffer (s : St) :
  exists artifact,
    downloads (page (dispatch RecorderStop s)) =
      downloads (page s) ++ [(filename (this s), artifact)] /\
    blob_bytes artifact = concat (map blob_bytes (recordedChunks (this s))) /\
    size artifact = fold_right (fun c n => size c + n) 0 (recordedChunks (this s)) /\
    (recordedChunks (this s) = [] -> artifact = mkBlob [] (mimeType (this s))).
Proof.
  exists (new_Blob (recordedChunks (this s)) (mimeType (this s))).
  unfold dispatch. cbn [handle]. rewrite downloadVideo_eq. cbn [snd page downloads].
  split_and!.
  - reflexivity.
  - reflexivity.
  - apply size_new_Blob.
  - intros ->. reflexivity.
Qed.

(** X19. The buffer is not tied to a recorder.  Chunks that reach an Idle
    worker (after an artifact was flushed, or before the first [start()])
    are buffered like any others, and the next session's artifact begins
    with what the buffer held and those chunks, followed by the session's
    own. *)
Theorem late_chunks_join_the_next_artifact (s : St) (late chunks : list Blob) :
  phase (this s) = Idle ->
  playing (video (this s)) = true ->
  capturable (video (this s)) = true ->
  isTypeSupported (opt_mimeType (options (this s))) = true ->
  Forall (fun c => 0 < size c) late ->
  Forall (fun c => 0 < size c) chunks ->
  recordedChunks (this (run (map DataAvailable late) s)) =
    recordedChunks (this s) ++ late /\
  phase (this (run (map DataAvailable late) s)) = Idle /\
  downloads (page (run (map DataAvailable late ++ [CallStart] ++
                        map DataAvailable chunks ++ [CallStop; RecorderStop]) s)) =
    downloads (page s) ++
    [(filename (this s),
      new_Blob (recordedChunks (this s) ++ late ++ chunks) (mimeType (this s)))].
Proof.
  intros Hph Hplay Hcap Hsup Hl Hc.
  set (s0 := run (map DataAvailable late) s).
  destruct (run_chunks late s Hl) as [T0 D0]. fold s0 in T0, D0.
  assert (P0 : phase (this s0) = Idle) by (rewrite T0; exact Hph).
  split; [rewrite T0; reflexivity|]. split; [exact P0|].
  assert (Hrun : run (map DataAvailable late ++ [CallStart] ++
                      map DataAvailable chunks ++ [CallStop; RecorderStop]) s =
                 dispatch RecorderStop
                   (dispatch CallStop
                      (run (map DataAvailable chunks) (dispatch CallStart s0)))).
  { rewrite !run_app. reflexivity. }
  rewrite Hrun. clear Hrun.
  set (s1 := dispatch CallStart s0).
  assert (E1 : s1 = snd (start s0)) by reflexivity.
  rewrite (start_fresh_eq s0) in E1;
    [|left; exact P0|rewrite T0; exact Hcap|rewrite T0; exact Hsup].
  cbn [snd] in E1. clearbody s1.
  assert (Hplay0 : playing (video (this s0)) = true) by (rewrite T0; exact Hplay).
  rewrite Hplay0 in E1.
  destruct (run_chunks chunks s1 Hc) as [T2 D2].
  set (s2 := run (map DataAvailable chunks) s1) in *. clearbody s2.
  assert (Hmr2 : mediaRecorder (this s2) =
                 Some (mkRecorder (length (constructed (page s0)))
                         RecordingState.recording (mkStream (fps (this s0)))
                         (options (this s0)))).
  { rewrite T2, E1. reflexivity. }
  set (s3 := dispatch CallStop s2).
  assert (E3 : s3 = snd (stop s2)) by reflexivity.
  rewrite (stop_active_eq s2 _ Hmr2) in E3 by discriminate. cbn [snd] in E3.
  clearbody s3.
  unfold dispatch. cbn [handle]. rewrite downloadVideo_eq. cbn [snd this page downloads].
  rewrite E3. cbn. rewrite D2, T2, E1, T0. cbn. rewrite D0, <- app_assoc. reflexivity.
Qed.

End Worker.

(** ** The properties on sample pages *)

Lemma start_while_Recording_is_noop_witness :
  phase (this (recording_sample webm_only)) = Recording /\
  exists s',
    start webm_only (recording_sample webm_only) = (Normal tt, s') /\
    this s' = this (recording_sample webm_only) /\
    phase (this s') = Recording /\
    mediaRecorder (this s') = mediaRecorder (this (recording_sample webm_only)) /\
    recordedChunks (this s') = recordedChunks (this (recording_sample webm_only)) /\
    constructed (page s') = constructed (page (recording_sample webm_only)) /\
    downloads (page s') = downloads (page (recording_sample webm_only)) /\
    console (page s') = ["recording"; "already recording"].
Proof.
  split; [reflexivity|].
  apply (start_while_Recording_is_noop webm_only (recording_sample webm_only)).
  reflexivity.
Defined.

Lemma playing_without_encoder_is_noop_witness :
  phase (this (fresh running_video)) = Idle /\
  Forall (fun e => e <> CallStart) startless_sample /\
  handle webm_only VideoPlaying (fresh running_video) =
    (Normal tt,
     mkSt (this (fresh running_video)) (mkPage ["video is now playing"] [] [] [])) /\
  phase (this (run webm_only startless_sample (fresh running_video))) = Idle /\
  constructed (page (run webm_only startless_sample (fresh running_video))) = [].
Proof.
  split; [reflexivity|].
  split; [repeat constructor; discriminate|].
  apply (playing_without_encoder_is_noop webm_only (fresh running_video) startless_sample).
  - reflexivity.
  - repeat constructor; discriminate.
Defined.

Lemma round_trip_witness :
  phase (this (fresh running_video)) = Idle /\
  playing (video (this (fresh running_video))) = true /\
  Forall (fun c => 0 < size c) [chunk_a; chunk_b] /\
  downloads (page (run webm_only session_sample (fresh running_video))) =
    [("cast.webm", mkBlob [x1a; x45; xdf; xa3; x1f; x43; xb6] "video/webm")] /\
  recordedChunks (this (run webm_only session_sample (fresh running_video))) = [] /\
  phase (this (run webm_only session_sample (fresh running_video))) = Idle /\
  mediaRecorder
    (this (run webm_only [CallStart; DataAvailable chunk_a; DataAvailable chunk_b]
               (fresh running_video))) =
    Some (mkRecorder 0 RecordingState.recording (mkStream 0)
            (mkOptions "video/webm; codecs=vp9")) /\
  mediaRecorder
    (this (run webm_only [CallStart; DataAvailable chunk_a; DataAvailable chunk_b; CallStop]
               (fresh running_video))) =
    Some (mkRecorder 0 RecordingState.inactive (mkStream 0)
            (mkOptions "video/webm; codecs=vp9")).
Proof.
  pose proof (round_trip webm_only (fresh running_video) [chunk_a; chunk_b]
                eq_refl eq_refl eq_refl eq_refl eq_refl
                ltac:(simpl; lia) ltac:(repeat constructor)) as H.
  cbv zeta in H. destruct H as (_ & _ & _ & H4 & _ & H6 & H7 & H8 & _ & H10 & _).
  split; [reflexivity|]. split; [reflexivity|]. split; [repeat constructor|].
  split; [exact H4|]. split; [exact H6|]. split; [exact H7|].
  split; [exact H8|exact H10].
Defined.

Lemma playing_while_Armed_restarts_witness :
  phase (this (armed_sample webm_only)) = Armed /\
  capturable (video (this (armed_sample webm_only))) = true /\
  rec_id <$> mediaRecorder (this (armed_sample webm_only)) = Some 0%nat /\
  length (constructed (page (dispatch webm_only VideoPlaying (armed_sample webm_only)))) =
    2%nat /\
  rec_id <$> mediaRecorder (this (dispatch webm_only VideoPlaying (armed_sample webm_only))) =
    Some 1%nat /\
  phase (this (dispatch webm_only VideoPlaying (armed_sample webm_only))) = Recording.
Proof.
  pose proof (playing_while_Armed_restarts webm_only (armed_sample webm_only)
                eq_refl eq_refl eq_refl) as H.
  cbv zeta in H. destruct H as (H1 & H2 & H3 & _).
  split; [reflexivity|]. split; [reflexivity|]. split; [reflexivity|].
  split; [rewrite H1; reflexivity|]. split; [exact H2|exact H3].
Defined.

Lemma stop_while_Armed_is_noop_witness :
  phase (this (fresh still_video)) = Idle /\
  playing (video (this (fresh still_video))) = false /\
  phase (this (dispatch webm_only CallStart (fresh still_video))) = Armed /\
  run webm_only [CallStart; CallStop] (fresh still_video) =
    dispatch webm_only CallStart (fresh still_video) /\
  phase (this (run webm_only [CallStart; CallStop] (fresh still_video))) = Armed /\
  downloads (page (run webm_only [CallStart; CallStop] (fresh still_video))) = [] /\
  console (page (run webm_only [CallStart; CallStop] (fresh still_video))) =
    ["stream not playing, waiting to start recording"].
Proof.
  pose proof (stop_while_Armed_is_noop webm_only (fresh still_video)
                eq_refl eq_refl eq_refl eq_refl eq_refl) as H.
  cbv zeta in H. destruct H as (H1 & _ & _ & H4 & H5 & H6).
  split; [reflexivity|]. split; [reflexivity|].
  split; [exact H1|]. split; [exact H4|]. split; [exact H5|].
  split; [exact H6|reflexivity].
Defined.

Lemma open_failure_propagates_witness :
  phase (this (fresh opaque_video)) = Idle /\
  capturable (video (this (fresh opaque_video))) = false /\
  start webm_only (fresh opaque_video) = (Throw NotSupportedError, fresh opaque_video) /\
  phase (this (dispatch webm_only CallStart (fresh opaque_video))) = Idle /\
  console (page (dispatch webm_only CallStart (fresh opaque_video))) = [].
Proof.
  pose proof (open_failure_propagates webm_only (fresh opaque_video)
                eq_refl (or_introl eq_refl)) as H.
  destruct H as (H1 & H2 & _ & _ & H5).
  split; [reflexivity|]. split; [reflexivity|].
  split; [exact H1|]. split; [exact H2|exact H5].
Defined.

Lemma fanout_ends_at_first_throw_witness :
  fst (VideoDownloader_start webm_only registry_sample blank_page) =
    Throw NotSupportedError /\
  map phase (workers (fst (snd (VideoDownloader_start webm_only registry_sample
                                  blank_page)))) = [Armed; Idle; Idle] /\
  fst (VideoDownloader_stop registry_sample blank_page) = Normal tt.
Proof.
  pose proof (fanout_ends_at_first_throw webm_only
                [new_VideoDownloadWorker still_video None None None]
                (new_VideoDownloadWorker opaque_video None None None)
                [new_VideoDownloadWorker running_video None None None]
                blank_page
                [this (dispatch webm_only CallStart (fresh still_video))]
                (page (dispatch webm_only CallStart (fresh still_video)))
                NotSupportedError
                (mkSt (new_VideoDownloadWorker opaque_video None None None)
                      (page (dispatch webm_only CallStart (fresh still_video))))
                registry_sample blank_page eq_refl eq_refl) as H.
  destruct H as (H1 & (H2 & _) & _).
  split; [exact (f_equal fst H1)|].
  split; [exact (f_equal (fun r => map phase (workers (fst (snd r)))) H1)|exact H2].
Defined.

(** ** Where the script departs from the specification *)

(** C1: with three videos of which the second cannot be captured,
    [startAll()] throws and the third worker, whose video is playing, is
    never started. *)
Lemma fanout_not_isolated :
  fst (VideoDownloader_start webm_only registry_sample blank_page) =
    Throw NotSupportedError /\
  map phase (workers (fst (snd (VideoDownloader_start webm_only registry_sample
                                  blank_page)))) = [Armed; Idle; Idle] /\
  ~ fanout_isolated webm_only registry_sample blank_page.
Proof.
  split; [reflexivity|]. split; [reflexivity|].
  intros [H _]. vm_compute in H. discriminate.
Qed.

(** C2: the "playing" event of an Armed worker constructs a second recorder
    and drops the armed one. *)
Lemma playing_constructs_second_recorder :
  phase (this (armed_sample webm_only)) = Armed /\
  rec_id <$> mediaRecorder (this (armed_sample webm_only)) = Some 0%nat /\
  rec_id <$> mediaRecorder (this (dispatch webm_only VideoPlaying (armed_sample webm_only))) =
    Some 1%nat /\
  length (constructed (page (dispatch webm_only VideoPlaying (armed_sample webm_only)))) =
    2%nat /\
  ~ playing_reuses_encoder webm_only (armed_sample webm_only).
Proof.
  split_and!; try reflexivity.
  intros H. destruct (H eq_refl) as (_ & H2 & _). vm_compute in H2. discriminate.
Qed.

(** C3: [stop()] of an Armed worker leaves it Armed, encoder in place. *)
Lemma stop_keeps_Armed :
  phase (this (run webm_only [CallStart; CallStop] (fresh still_video))) = Armed /\
  truthy (mediaRecorder (this (run webm_only [CallStart; CallStop] (fresh still_video)))) =
    true /\
  ~ stop_from_Armed_releases webm_only (fresh still_video).
Proof.
  split_and!; try reflexivity.
  intros (_ & _ & H & _). vm_compute in H. discriminate.
Qed.

(** C8: a failed encoder instantiation is thrown, and nothing is logged. *)
Lemma open_failure_not_logged :
  start webm_only (fresh opaque_video) = (Throw NotSupportedError, fresh opaque_video) /\
  ~ open_failure_logged webm_only (fresh opaque_video).
Proof.
  split; [reflexivity|].
  intros (_ & (msgs & Hne & H) & _). vm_compute in H.
  destruct msgs; [congruence|discriminate].
Qed.

(** C4. The constructor's [mimeType] argument is bound and never stored: the
    worker keeps the default container format whatever is passed, the
    artifact is tagged with that default, and only the file name follows the
    arguments. *)
Theorem mimeType_argument_is_dropped
    (video0 : HTMLVideoElement) (filename0 mimeType0 : option string)
    (options0 : option Options) :
  mimeType (new_VideoDownloadWorker video0 filename0 mimeType0 options0) = "video/webm" /\
  downloads (page (run webm_only [CallStart; DataAvailable chunk_a; CallStop; RecorderStop]
                       (mkSt (new_VideoDownloadWorker running_video (Some "talk.mkv")
                                (Some "video/x-matroska") None) blank_page))) =
    [("talk.mkv", mkBlob [x1a; x45; xdf; xa3] "video/webm")].
Proof. split; reflexivity. Qed.

(** The final chunk reaches the handler after [stop()] was called and before
    the recorder's stop event: it belongs to the artifact of that session. *)
Example chunk_between_stop_and_stop_event :
  downloads (page (run webm_only
                     [CallStart; DataAvailable chunk_a; CallStop; DataAvailable chunk_b;
                      RecorderStop; DataAvailable chunk_a]
                     (fresh running_video))) =
    [("cast.webm", mkBlob [x1a; x45; xdf; xa3; x1f; x43; xb6] "video/webm")] /\
  recordedChunks (this (run webm_only
                     [CallStart; DataAvailable chunk_a; CallStop; DataAvailable chunk_b;
                      RecorderStop; DataAvailable chunk_a]
                     (fresh running_video))) = [chunk_a].
Proof. split; reflexivity. Qed.

(** The recorder's stop event on an empty buffer downloads an empty file. *)
Example stop_event_on_empty_buffer :
  downloads (page (run webm_only [CallStart; CallStop; RecorderStop] (fresh running_video))) =
    [("cast.webm", mkBlob [] "video/webm")].
Proof. reflexivity. Qed.

(** ** The further properties on sample pages *)

Lemma start_resumes_Paused_witness :
  phase (this (paused_sample webm_only)) = Paused /\
  phase (this (dispatch webm_only CallStart (paused_sample webm_only))) = Recording /\
  rec_id <$> mediaRecorder (this (dispatch webm_only CallStart (paused_sample webm_only))) =
    Some 0%nat /\
  constructed (page (dispatch webm_only CallStart (paused_sample webm_only))) =
    constructed (page (paused_sample webm_only)).
Proof.
  pose proof (start_resumes_Paused webm_only (paused_sample webm_only) eq_refl) as H.
  destruct H as (_ & H2 & H3 & _ & H5 & _).
  split; [reflexivity|]. split; [exact H2|]. split; [exact H3|exact H5].
Defined.

Lemma stall_then_playing_round_trip_witness :
  phase (this (recording_sample webm_only)) = Recording /\
  phase (this (dispatch webm_only VideoStalled (recording_sample webm_only))) = Paused /\
  this (run webm_only [VideoStalled; VideoPlaying] (recording_sample webm_only)) =
    this (recording_sample webm_only) /\
  this (run webm_only [VideoPause; VideoPlaying] (recording_sample webm_only)) =
    this (recording_sample webm_only).
Proof.
  pose proof (stall_then_playing_round_trip webm_only (recording_sample webm_only)
                eq_refl) as H.
  destruct H as (H1 & _ & H3 & H4 & _).
  split; [reflexivity|]. split; [exact H1|]. split; [exact H3|exact H4].
Defined.

Lemma other_handlers_return_witness :
  RecorderStop <> CallStart /\ RecorderStop <> VideoPlaying /\
  fst (handle webm_only RecorderStop (fresh running_video)) = Normal tt /\
  fst (handle webm_only VideoEnded (recording_sample webm_only)) = Normal tt.
Proof.
  split; [discriminate|]. split; [discriminate|]. split.
  - apply (other_handlers_return webm_only RecorderStop (fresh running_video));
      discriminate.
  - apply (other_handlers_return webm_only VideoEnded (recording_sample webm_only));
      discriminate.
Defined.

Lemma downloads_leave_nothing_behind_witness :
  released (fresh running_video) /\
  released (run webm_only session_sample (fresh running_video)) /\
  objectURLs (page (run webm_only session_sample (fresh running_video))) = [None].
Proof.
  assert (H0 : released (fresh running_video)) by (split; [constructor|reflexivity]).
  split; [exact H0|]. split; [|reflexivity].
  apply (downloads_leave_nothing_behind webm_only (fresh running_video) session_sample).
  exact H0.
Defined.

Lemma one_file_across_a_stall_witness :
  phase (this (recording_sample webm_only)) = Recording /\
  Forall (fun c => 0 < size c) [chunk_a] /\
  Forall (fun c => 0 < size c) [chunk_b] /\
  (let before := run webm_only
                   (map DataAvailable [chunk_a] ++ [VideoStalled; VideoPlaying] ++
                    map DataAvailable [chunk_b] ++ [VideoEnded])
                   (recording_sample webm_only) in
   let after := dispatch webm_only RecorderStop before in
   downloads (page before) = downloads (page (recording_sample webm_only)) /\
   downloads (page after) =
     downloads (page (recording_sample webm_only)) ++
     [(filename (this (recording_sample webm_only)),
       new_Blob (recordedChunks (this (recording_sample webm_only)) ++
                 [chunk_a] ++ [chunk_b])
                (mimeType (this (recording_sample webm_only))))] /\
   recordedChunks (this after) = [] /\
   phase (this after) = Idle).
Proof.
  split; [reflexivity|]. split; [repeat constructor|]. split; [repeat constructor|].
  apply (one_file_across_a_stall webm_only (recording_sample webm_only)
           [chunk_a] [chunk_b]).
  - reflexivity.
  - repeat constructor.
  - repeat constructor.
Defined.

Lemma stop_event_drops_restarted_recorder_witness :
  phase (this (recording_sample webm_only)) = Recording /\
  playing (video (this (recording_sample webm_only))) = true /\
  capturable (video (this (recording_sample webm_only))) = true /\
  (let restarted := run webm_only [CallStop; CallStart] (recording_sample webm_only) in
   let flushed := dispatch webm_only RecorderStop restarted in
   phase (this restarted) = Recording /\
   rec_id <$> mediaRecorder (this restarted) =
     Some (length (constructed (page (recording_sample webm_only)))) /\
   constructed (page restarted) =
     constructed (page (recording_sample webm_only)) ++
     [(mkStream (fps (this (recording_sample webm_only))),
       options (this (recording_sample webm_only)))] /\
   mediaRecorder (this flushed) = None /\
   phase (this flushed) = Idle /\
   dispatch webm_only CallStop flushed = flushed).
Proof.
  split; [reflexivity|]. split; [reflexivity|]. split; [reflexivity|].
  apply (stop_event_drops_restarted_recorder webm_only (recording_sample webm_only));
    reflexivity.
Defined.

Lemma start_records_iff_video_advances_witness :
  phase (this (fresh running_video)) = Idle /\
  phase (this (fresh still_video)) = Idle /\
  phase (this (dispatch webm_only CallStart (fresh running_video))) = Recording /\
  phase (this (dispatch webm_only CallStart (fresh still_video))) <> Recording.
Proof.
  pose proof (start_records_iff_video_advances webm_only (fresh running_video)
                eq_refl eq_refl eq_refl) as (H1 & _).
  pose proof (start_records_iff_video_advances webm_only (fresh still_video)
                eq_refl eq_refl eq_refl) as (H2 & _).
  split; [reflexivity|]. split; [reflexivity|]. split.
  - apply H1. split_and!; reflexivity.
  - intros H. apply H2 in H. destruct H as (_ & H & _). discriminate.
Defined.

Lemma late_chunks_join_the_next_artifact_witness :
  phase (this (fresh running_video)) = Idle /\
  Forall (fun c => 0 < size c) [chunk_b] /\
  downloads (page (run webm_only
     [DataAvailable chunk_b; CallStart; DataAvailable chunk_a; CallStop; RecorderStop]
     (fresh running_video))) =
    [("cast.webm", mkBlob [x1f; x43; xb6; x1a; x45; xdf; xa3] "video/webm")].
Proof.
  pose proof (late_chunks_join_the_next_artifact webm_only (fresh running_video)
                [chunk_b] [chunk_a] eq_refl eq_refl eq_refl eq_refl
                ltac:(repeat constructor) ltac:(repeat constructor)) as H.
  destruct H as (_ & _ & H3).
  split; [reflexivity|]. split; [repeat constructor|exact H3].
Defined.
